(** * deepDives.ts: a shallow embedding and its properties

    The module [src/deepDives.ts] collects the open "Deep-dive" issues of a
    repository, reads a due date and two role lines out of each issue body,
    looks at the issue's comments, and renders one line per issue.

    Modelling conventions.
    - JavaScript strings are [string]; every pattern and needle of the module
      is ASCII, so searching bytes and searching code units agree.
    - A synchronous computation that may throw is a [Completion]; the state
      in which a promise settles is a [Settled].
    - Optional properties ([highPriority?: boolean]) are [option]s; [None] is
      the absent property, which reads as [undefined].
    - Time values are integers of milliseconds ([Z]); an invalid date ([NaN])
      is [None].  The differences the module compares with [oneDayMs] are
      differences of integers below 2^54 in size, and [oneDayMs] and its
      neighbours are exact doubles, so the comparison on [Z] is the
      comparison the engine performs.
    - The three regular-expression literals carry the group [(?s)], which
      the language does not have.  What an engine makes of a literal is a
      parameter, the [Dialect]; the language's own dialect refuses all
      three.  The language refuses them when the module is parsed, before
      any function runs; the embedding, which takes each function on its
      own, shows the refusal where the literal stands.
    - The system clock and the API client ("kit") are explicit arguments. *)

From Stdlib Require Import ZArith List Bool Ascii String Lia Permutation.
Import ListNotations.
Open Scope string_scope.
Open Scope Z_scope.

Set Implicit Arguments.

(** ** Completions and promises *)

Inductive JsError : Type :=
| TypeError (msg : string)
| RangeError (msg : string)
| SyntaxError (msg : string)
| Error (msg : string).

Inductive Completion (A : Type) : Type :=
| Return (a : A)
| Throw (e : JsError).
Arguments Return {A} a.
Arguments Throw {A} e.

Inductive Settled (A : Type) : Type :=
| Fulfilled (a : A)
| Rejected (e : JsError).
Arguments Fulfilled {A} a.
Arguments Rejected {A} e.

(** The promise an [async] function returns settles the way its body
    completes. *)
Definition async {A} (c : Completion A) : Settled A :=
  match c with
  | Return a => Fulfilled a
  | Throw e => Rejected e
  end.

(** ** Strings as the module uses them *)

Module JsString.

(** [s.startsWith(p)] *)
Fixpoint startsWith (p s : string) : bool :=
  match p, s with
  | EmptyString, _ => true
  | String a p', String b s' => Ascii.eqb a b && startsWith p' s'
  | String _ _, EmptyString => false
  end.

(** [s.includes(needle)] *)
Fixpoint includes (needle s : string) : bool :=
  startsWith needle s
  || match s with
     | EmptyString => false
     | String _ s' => includes needle s'
     end.

(** JavaScript truthiness of a string: every string but the empty one. *)
Definition truthyString (s : string) : bool :=
  match s with EmptyString => false | String _ _ => true end.

(** [xs.join(sep)] *)
Fixpoint join (sep : string) (xs : list string) : string :=
  match xs with
  | [] => ""
  | [x] => x
  | x :: rest => x ++ sep ++ join sep rest
  end.

(** [s] contains [needle]. *)
Definition occursIn (needle s : string) : Prop :=
  exists pre post, s = pre ++ needle ++ post.

End JsString.

(** ** The regular expressions

    [s.match(re)] with a global [re] yields the array of the whole matches
    (capture groups are not reported), or [null] when there is none. *)

Module Regex.

(** The three literals of the module, of lines 22, 31 and 32. *)
Inductive Literal : Type :=
| TimingLiteral
| NotetakerLiteral
| LeaderLiteral.

(** The pattern of a literal, as the source has it between the slashes;
    each literal carries the flag [g]. *)
Definition pattern (l : Literal) : string :=
  match l with
  | TimingLiteral => "## Timing(?s)(.*)\[Google Event"
  | NotetakerLiteral => "Notetaker:(?s)(.*)?"
  | LeaderLiteral => "Leader:(?s)(.*)Notetaker"
  end.

(** A compiled global pattern: for a subject, the first whole match and
    the further ones, or [None] for [null]. *)
Definition Matcher : Type := string -> option (string * list string).

(** What an engine makes of the literals: it refuses one ([None]) or
    compiles it. *)
Definition Dialect : Type := Literal -> option Matcher.

(** After the two characters that open a special group the language wants
    a colon, an equals sign, an exclamation mark or a less-than sign, or
    modifiers ([i], [m], [s], [-]) ending in a colon. *)
Fixpoint modifiersThenColon (s : string) : bool :=
  match s with
  | EmptyString => false
  | String c rest =>
      if Ascii.eqb c ":" then true
      else if Ascii.eqb c "i" || Ascii.eqb c "m" || Ascii.eqb c "s"
              || Ascii.eqb c "-"
           then modifiersThenColon rest
           else false
  end.

Definition groupPrefix (after : string) : bool :=
  match after with
  | EmptyString => false
  | String c _ =>
      Ascii.eqb c ":" || Ascii.eqb c "=" || Ascii.eqb c "!" || Ascii.eqb c "<"
      || modifiersThenColon after
  end.

(** Every special group of the pattern opens as the language wants; an
    escaped character opens nothing. *)
Fixpoint groupsWellFormed (s : string) : bool :=
  match s with
  | EmptyString => true
  | String c rest =>
      if Ascii.eqb c "\" then
        match rest with
        | EmptyString => true
        | String _ rest' => groupsWellFormed rest'
        end
      else if Ascii.eqb c "(" then
        match rest with
        | EmptyString => true
        | String q after =>
            if Ascii.eqb q "?"
            then groupPrefix after && groupsWellFormed after
            else groupsWellFormed rest
        end
      else groupsWellFormed rest
  end.

(** The dialect of the language: a literal with an ill-formed group is
    refused; how the engine matches the others is [exec]. *)
Definition ecmaScript (exec : Literal -> Matcher) : Dialect :=
  fun l => if groupsWellFormed (pattern l) then Some (exec l) else None.

(** An engine that never finds a match. *)
Definition noMatch : Literal -> Matcher := fun _ _ => None.

(** The message of the error for a refused literal. *)
Definition invalidGroup (l : Literal) : string :=
  "Invalid regular expression: /" ++ pattern l ++ "/g: Invalid group".

(** The literals of the module in the order of its text: lines 22, 31
    and 32. *)
Definition literals : list Literal :=
  [TimingLiteral; NotetakerLiteral; LeaderLiteral].

Definition refused (regexp : Dialect) (l : Literal) : bool :=
  match regexp l with
  | Some _ => false
  | None => true
  end.

End Regex.

(** [const [x] = v]: destructuring [null] throws. *)
Definition destructureFirst (m : option (string * list string))
  : Completion string :=
  match m with
  | Some (x, _) => Return x
  | None =>
      Throw (TypeError "object null is not iterable (cannot read property Symbol(Symbol.iterator))")
  end.

(** ** Dates

    [Date.parse] is fixed by the language for the date-time string format
    only; for any other text an engine may apply heuristics of its own.  The
    model reads the complete UTC form [YYYY-MM-DDTHH:mm:ss.sssZ] (the form
    [toISOString] writes) by [isoParse] and leaves every other text to
    [legacyParse], the engine's own part, which stays a parameter. *)

Module JsDate.

Definition msPerDay : Z := 86400000.

Definition digitOf (c : ascii) : option Z :=
  let n := Z.of_nat (nat_of_ascii c) in
  if (48 <=? n) && (n <=? 57) then Some (n - 48) else None.

Fixpoint digitsValue (cs : list ascii) (acc : Z) : option Z :=
  match cs with
  | [] => Some acc
  | c :: rest =>
      match digitOf c with
      | Some d => digitsValue rest (10 * acc + d)
      | None => None
      end
  end.

(** The decimal field of [len] digits at offset [start]. *)
Definition field (s : string) (start len : nat) : option Z :=
  let sub := substring start len s in
  if Nat.eqb (String.length sub) len
  then digitsValue (list_ascii_of_string sub) 0
  else None.

Definition charAt (s : string) (i : nat) (c : ascii) : bool :=
  match String.get i s with
  | Some c' => Ascii.eqb c c'
  | None => false
  end.

Definition isLeap (y : Z) : bool :=
  ((y mod 4 =? 0) && negb (y mod 100 =? 0)) || (y mod 400 =? 0).

Definition daysInMonth (y m : Z) : Z :=
  if m =? 2 then (if isLeap y then 29 else 28)
  else if (m =? 4) || (m =? 6) || (m =? 9) || (m =? 11) then 30
  else 31.

(** Days from 1970-01-01 to the civil date [y]-[m]-[d]. *)
Definition daysFromCivil (y m d : Z) : Z :=
  let y' := if m <=? 2 then y - 1 else y in
  let era := y' / 400 in
  let yoe := y' - era * 400 in
  let mp := if 2 <? m then m - 3 else m + 9 in
  let doy := (153 * mp + 2) / 5 + d - 1 in
  let doe := yoe * 365 + yoe / 4 - yoe / 100 + doy in
  era * 146097 + doe - 719468.

(** The civil date (year, month, day) of a day number. *)
Definition civilFromDays (days : Z) : Z * Z * Z :=
  let z := days + 719468 in
  let era := z / 146097 in
  let doe := z - era * 146097 in
  let yoe := (doe - doe / 1460 + doe / 36524 - doe / 146096) / 365 in
  let y := yoe + era * 400 in
  let doy := doe - (365 * yoe + yoe / 4 - yoe / 100) in
  let mp := (5 * doy + 2) / 153 in
  let d := doy - (153 * mp + 2) / 5 + 1 in
  let m := if mp <? 10 then mp + 3 else mp - 9 in
  (if m <=? 2 then y + 1 else y, m, d).

Definition isoParse (s : string) : option Z :=
  if negb (Nat.eqb (String.length s) 24) then None
  else if negb (charAt s 4 "-" && charAt s 7 "-" && charAt s 10 "T"
                && charAt s 13 ":" && charAt s 16 ":" && charAt s 19 "."
                && charAt s 23 "Z") then None
  else
    match field s 0 4, field s 5 2, field s 8 2,
          field s 11 2, field s 14 2, field s 17 2, field s 20 3 with
    | Some y, Some mo, Some d, Some h, Some mi, Some sec, Some ms =>
        if (1 <=? mo) && (mo <=? 12) && (1 <=? d) && (d <=? daysInMonth y mo)
           && ((h <=? 23) || ((h =? 24) && (mi =? 0) && (sec =? 0) && (ms =? 0)))
           && (mi <=? 59) && (sec <=? 59)
        then Some (daysFromCivil y mo d * msPerDay
                   + h * 3600000 + mi * 60000 + sec * 1000 + ms)
        else None
    | _, _, _, _, _, _, _ => None
    end.

(** [n] in decimal on [width] digits, zero padded. *)
Fixpoint padDec (width : nat) (n : Z) : string :=
  match width with
  | O => ""
  | S w =>
      padDec w (n / 10)
      ++ String (ascii_of_nat (48 + Z.to_nat (n mod 10))) ""
  end.

(** [d.toISOString()] of a valid date with time value [t]. *)
Definition isoString (t : Z) : string :=
  let '(y, m, d) := civilFromDays (t / msPerDay) in
  let r := t mod msPerDay in
  (if (0 <=? y) && (y <=? 9999) then padDec 4 y
   else (if y <? 0 then "-" else "+") ++ padDec 6 (Z.abs y))
  ++ "-" ++ padDec 2 m ++ "-" ++ padDec 2 d
  ++ "T" ++ padDec 2 (r / 3600000) ++ ":" ++ padDec 2 (r / 60000 mod 60)
  ++ ":" ++ padDec 2 (r / 1000 mod 60) ++ "." ++ padDec 3 (r mod 1000)
  ++ "Z".

Section Engine.

(** What the engine makes of a text that is not in the date-time format. *)
Variable legacyParse : string -> option Z.

(** [Date.parse(s)], and so the time value of [new Date(s)]; [None] is
    [NaN]. *)
Definition parse (s : string) : option Z :=
  match isoParse s with
  | Some t => Some t
  | None => legacyParse s
  end.

(** [new Date(s).getTime()] *)
Definition getTime (s : string) : option Z := parse s.

(** [new Date(s).toISOString()]: throws on an invalid date. *)
Definition toISOString (s : string) : Completion string :=
  match parse s with
  | Some t => Return (isoString t)
  | None => Throw (RangeError "Invalid time value")
  end.

End Engine.

(** An engine without heuristics: only the date-time format is read. *)
Definition strictEngine : string -> option Z := fun _ => None.

End JsDate.

(** ** Data model *)

Record MissingFields : Type := {
  leader : option bool;
  notetaker : option bool
}.

Record MissingUpdates : Type := {
  pastDue : option bool;
  needsRecording : option bool;
  needsNotes : option bool
}.

Record DeepDiveIssueUpdate : Type := {
  id : Z;
  url : string;
  dueDate : string;
  highPriority : option bool;
  missingFields : option MissingFields;
  missingUpdates : option MissingUpdates;
  title : string
}.

(** What the issue tracker returns. *)
Record Issue : Type := {
  issue_id : Z;
  issue_url : string;
  issue_title : string;
  issue_body : string
}.

Record Comment : Type := { body : string }.

(** Truthiness of an optional boolean property. *)
Definition truthy (o : option bool) : bool :=
  match o with
  | Some true => true
  | _ => false
  end.

(** [u.highPriority = b] *)
Definition setHighPriority (u : DeepDiveIssueUpdate) (b : bool)
  : DeepDiveIssueUpdate :=
  {| id := id u;
     url := url u;
     dueDate := dueDate u;
     highPriority := Some b;
     missingFields := missingFields u;
     missingUpdates := missingUpdates u;
     title := title u |}.

Definition oneDayMs : Z := 1000 * 60 * 60 * 24.

(** ** The API client

    [kit] is untyped in the source.  What [kit.paginate] hands back is either
    an array or a promise of one; [await] accepts both, [.map] only the
    array. *)

Inductive Request : Type :=
| GetIssues (owner repo labels state : string)
| GetComments (owner repo : string) (issue_number : Z).

Inductive Reply (A : Type) : Type :=
| Sync (items : list A)
| Async (p : Settled (list A)).
Arguments Sync {A} items.
Arguments Async {A} p.

Record Kit : Type := {
  paginateIssues : string -> string -> string -> string -> Reply Issue;
  paginateComments : string -> string -> Z -> Reply Comment
}.

(** [await r] *)
Definition await {A} (r : Reply A) : Completion (list A) :=
  match r with
  | Sync xs => Return xs
  | Async (Fulfilled xs) => Return xs
  | Async (Rejected e) => Throw e
  end.

(** The clock readings of one issue's processing: [new Date()] at the
    status check (line 42) and at the priority check (line 92). *)
Record Readings : Type := { line42 : Z; line92 : Z }.

(** The readings the clock gives while the issue at each position of the
    list is processed. *)
Definition Clock : Type := nat -> Readings.

Definition steady (now : Z) : Clock :=
  fun _ => {| line42 := now; line92 := now |}.

(** ** The module's functions *)

Section DeepDives.

Variable regexp : Regex.Dialect.
Variable legacyParse : string -> option Z.

(** Lines 21 to 28.  The literal of line 22 comes first; element 0 of the
    match is destructured, tested, and handed to [Date]. *)
Definition getDueDateFromDeepDiveBody (issueBody : string) : Completion string :=
  match regexp Regex.TimingLiteral with
  | None => Throw (SyntaxError (Regex.invalidGroup Regex.TimingLiteral))
  | Some regex =>
      match destructureFirst (regex issueBody) with
      | Throw e => Throw e
      | Return dueDateUnformatted =>
          if negb (JsString.truthyString dueDateUnformatted)
          then Throw (Error "No date found for Deep Dive")
          else JsDate.toISOString legacyParse dueDateUnformatted
      end
  end.

(** Lines 30 to 38.  The literals of lines 31 and 32 come first, then the
    two matches in the order of lines 34 and 35. *)
Definition getMissingFieldsFromDeepDiveBody (issueBody : string)
  : Completion MissingFields :=
  match regexp Regex.NotetakerLiteral with
  | None => Throw (SyntaxError (Regex.invalidGroup Regex.NotetakerLiteral))
  | Some notetakerRegex =>
      match regexp Regex.LeaderLiteral with
      | None => Throw (SyntaxError (Regex.invalidGroup Regex.LeaderLiteral))
      | Some leaderRegex =>
          match destructureFirst (notetakerRegex issueBody) with
          | Throw e => Throw e
          | Return notetaker =>
              match destructureFirst (leaderRegex issueBody) with
              | Throw e => Throw e
              | Return leader =>
                  Return {| notetaker := Some (JsString.truthyString notetaker);
                            leader := Some (JsString.truthyString leader) |}
              end
          end
      end
  end.

(** [new Date(dueDate).getTime() - now <= oneDayMs]; a comparison with [NaN]
    is false. *)
Definition withinOneDay (now : Z) (dueDate : string) : bool :=
  match JsDate.getTime legacyParse dueDate with
  | Some t => t - now <=? oneDayMs
  | None => false
  end.

(** The [forEach] over the comments, with its two mutable flags
    [(needsRecording, needsNotes)]. *)
Definition visitComment (flags : bool * bool) (c : Comment) : bool * bool :=
  let '(needsRecording, needsNotes) := flags in
  let needsRecording :=
    if JsString.includes "github.rewatch.com" (body c)
    then false else needsRecording in
  let needsNotes :=
    if JsString.includes "/accessibility/blob/main/docs/deep-dive-notes/" (body c)
    then false else needsNotes in
  (needsRecording, needsNotes).

Definition scanComments (comments : list Comment) : bool * bool :=
  fold_left visitComment comments (true, true).

Variable kit : Kit.

(** The settled result together with the requests sent to [kit.paginate]. *)
Definition getMissingUpdates (now : Z) (dueDate : string) (issueId : Z)
    (owner repo : string) : Settled MissingUpdates * list Request :=
  let pastDue := withinOneDay now dueDate in
  if negb pastDue
  then (Fulfilled {| pastDue := Some pastDue;
                     needsRecording := None;
                     needsNotes := None |}, [])
  else
    let request := GetComments owner repo issueId in
    match await (paginateComments kit owner repo issueId) with
    | Throw e => (Rejected e, [request])
    | Return comments =>
        let '(needsRecording, needsNotes) := scanComments comments in
        (Fulfilled {| needsRecording := Some needsRecording;
                      needsNotes := Some needsNotes;
                      pastDue := Some pastDue |}, [request])
    end.

(** Lines 82 to 98: the record is built and the priority flag set. *)
Definition assembleIssue (now : Z) (issue : Issue) (dueDate : string)
    (updates : MissingUpdates) (fields : MissingFields) : DeepDiveIssueUpdate :=
  let mappedIssue :=
    {| dueDate := dueDate;
       id := issue_id issue;
       url := issue_url issue;
       missingFields := Some fields;
       missingUpdates := Some updates;
       title := issue_title issue;
       highPriority := None |} in
  let isTomorrow := withinOneDay now dueDate in
  if isTomorrow && (truthy (leader fields) || truthy (leader fields))
  then setHighPriority mappedIssue true
  else mappedIssue.

(** The [async] callback of [.map], lines 79 to 99: a throw in its body
    rejects the promise it returns. *)
Definition mapIssue (readings : Readings) (owner repo : string) (issue : Issue)
  : Settled DeepDiveIssueUpdate * list Request :=
  match getDueDateFromDeepDiveBody (issue_body issue) with
  | Throw e => (Rejected e, [])
  | Return dueDate =>
      match getMissingUpdates (line42 readings) dueDate (issue_id issue)
                              owner repo with
      | (Rejected e, calls) => (Rejected e, calls)
      | (Fulfilled updates, calls) =>
          match getMissingFieldsFromDeepDiveBody (issue_body issue) with
          | Throw e => (Rejected e, calls)
          | Return fields =>
              (Fulfilled (assembleIssue (line92 readings) issue dueDate
                                        updates fields), calls)
          end
      end
  end.

(** [issues.map(callback)], the callback seeing the clock of its position. *)
Fixpoint mapIssues (clock : Clock) (owner repo : string) (position : nat)
    (issues : list Issue)
  : list (Settled DeepDiveIssueUpdate) * list Request :=
  match issues with
  | [] => ([], [])
  | issue :: rest =>
      let '(p, calls) := mapIssue (clock position) owner repo issue in
      let '(ps, calls') := mapIssues clock owner repo (S position) rest in
      (p :: ps, (calls ++ calls')%list)
  end.

(** Lines 72 to 102.  [.map] is applied to what [kit.paginate] returns,
    before the [await]: a promise has no [map], an array has.  The callback
    is [async], so [.map] yields an array of promises, and [await] of an
    array is that array: the elements are not awaited.  The result is
    therefore the array of the promises the callbacks returned, each shown
    here in the state it settles in; a callback that throws gives a rejected
    element and leaves the others alone.  The comment requests are sent
    while [.map] runs, in the order of the issues. *)
Definition getDeepDiveIssues (clock : Clock) (owner repo : string)
  : Settled (list (Settled DeepDiveIssueUpdate)) * list Request :=
  let labels := "Deep-dive" in
  let request := GetIssues owner repo labels "open" in
  match paginateIssues kit owner repo labels "open" with
  | Async _ =>
      (Rejected (TypeError "kit.paginate(...).map is not a function"),
       [request])
  | Sync issues =>
      let '(allIssues, calls) := mapIssues clock owner repo 0 issues in
      (Fulfilled allIssues, request :: calls)
  end.

End DeepDives.

(** ** The formatter

    Types are erased at run time: [formatDeepDiveUpdate] reads properties off
    whatever it is handed.  It is handed update records by its callers
    outside the module and the elements of the array of
    [getDeepDiveIssues], which are promise objects, by the entry point. *)

Inductive Element : Type :=
| Plain (u : DeepDiveIssueUpdate)
| PromiseOf (p : Settled DeepDiveIssueUpdate).

(** Property reads; a promise object has none of the properties. *)
Definition prop_highPriority (v : Element) : option bool :=
  match v with Plain u => highPriority u | PromiseOf _ => None end.

Definition prop_missingFields (v : Element) : option MissingFields :=
  match v with Plain u => missingFields u | PromiseOf _ => None end.

Definition prop_missingUpdates (v : Element) : option MissingUpdates :=
  match v with Plain u => missingUpdates u | PromiseOf _ => None end.

Definition prop_title (v : Element) : option string :=
  match v with Plain u => Some (title u) | PromiseOf _ => None end.

Definition prop_url (v : Element) : option string :=
  match v with Plain u => Some (url u) | PromiseOf _ => None end.

(** A value spliced into a template literal. *)
Definition interpolate (o : option string) : string :=
  match o with
  | Some s => s
  | None => "undefined"
  end.

Definition readOfUndefined {A} (property : string) : Completion A :=
  Throw (TypeError ("Cannot read properties of undefined (reading '"
                    ++ property ++ "')")).

(** The second [if] of the reason, lines 115 to 122. *)
Definition reasonPastDue (v : Element) : Completion (option string) :=
  match prop_missingUpdates v with
  | None => readOfUndefined "pastDue"
  | Some updates =>
      if truthy (pastDue updates) then
        if truthy (needsNotes updates) then Return (Some "Needs notes")
        else if truthy (needsRecording updates)
             then Return (Some "Needs a rewatch recording")
             else Return None
      else Return None
  end.

(** The immediately invoked function of lines 105 to 123; [None] is the
    [undefined] of falling off its end. *)
Definition reason (v : Element) : Completion (option string) :=
  if truthy (prop_highPriority v) then
    match prop_missingFields v with
    | None => readOfUndefined "leader"
    | Some fields =>
        if truthy (leader fields) then
          Return (Some ("Needs a leader "
                        ++ (if truthy (notetaker fields)
                            then "and a notetaker" else "")
                        ++ " to volunteer"))
        else if truthy (notetaker fields) then
          Return (Some "Needs a notetaker to volunteer")
        else reasonPastDue v
    end
  else reasonPastDue v.

Definition formatDeepDiveUpdate (v : Element) : Completion string :=
  match reason v with
  | Throw e => Throw e
  | Return r =>
      Return ((if truthy (prop_highPriority v)
               then ":warning: Tomorrow's " else "")
              ++ "[" ++ interpolate (prop_title v) ++ "]("
              ++ interpolate (prop_url v) ++ "): " ++ interpolate r)
  end.

(** [xs.map(f)] for an [f] that may throw: the first throw ends the map. *)
Fixpoint mapThrowing {A B} (f : A -> Completion B) (xs : list A)
  : Completion (list B) :=
  match xs with
  | [] => Return []
  | x :: rest =>
      match f x with
      | Throw e => Throw e
      | Return y =>
          match mapThrowing f rest with
          | Throw e => Throw e
          | Return ys => Return (y :: ys)
          end
      end
  end.

Definition newline : string := String (ascii_of_nat 10) "".

Section EntryPoint.

Variable regexp : Regex.Dialect.
Variable legacyParse : string -> option Z.
Variable kit : Kit.

Definition getAndFormatDeepDiveUpdates (clock : Clock) (owner repo : string)
  : Settled string * list Request :=
  match getDeepDiveIssues regexp legacyParse kit clock owner repo with
  | (Rejected e, calls) => (Rejected e, calls)
  | (Fulfilled allIssues, calls) =>
      match mapThrowing formatDeepDiveUpdate (map PromiseOf allIssues) with
      | Throw e => (Rejected e, calls)
      | Return updatesArray =>
          (Fulfilled (match updatesArray with
                      | [] => ""
                      | _ :: _ =>
                          "<li>" ++ JsString.join ("</li>" ++ newline) updatesArray
                      end), calls)
      end
  end.

End EntryPoint.

(** ** Reading the module

    A literal the language refuses is an early error: the module stops at
    the first such literal of its text when it is read, and none of its
    functions is defined. *)
Definition parseModule (regexp : Regex.Dialect) : Completion unit :=
  match List.find (Regex.refused regexp) Regex.literals with
  | Some l => Throw (SyntaxError (Regex.invalidGroup l))
  | None => Return tt
  end.

(** ** Definitions the statements use *)

(** The two tests of the comment scan. *)
Definition mentionsRecording (c : Comment) : bool :=
  JsString.includes "github.rewatch.com" (body c).

Definition mentionsNotes (c : Comment) : bool :=
  JsString.includes "/accessibility/blob/main/docs/deep-dive-notes/" (body c).

(** The two sub-records of an update, read as empty when absent. *)
Definition fieldsView (u : DeepDiveIssueUpdate) : MissingFields :=
  match missingFields u with
  | Some fields => fields
  | None => {| leader := None; notetaker := None |}
  end.

Definition updatesView (u : DeepDiveIssueUpdate) : MissingUpdates :=
  match missingUpdates u with
  | Some updates => updates
  | None => {| pastDue := None; needsRecording := None; needsNotes := None |}
  end.

(** A rule on the roles, (a) or (b), gives the reason. *)
Definition rolesDecide (u : DeepDiveIssueUpdate) : bool :=
  truthy (highPriority u)
  && (truthy (leader (fieldsView u)) || truthy (notetaker (fieldsView u))).

(** The prefix of a high-priority line. *)
Definition marker (highPriority : bool) : string :=
  if highPriority then ":warning: Tomorrow's " else "".

(** The reason as the specification words it: the first rule that applies,
    in the order (a) to (e). *)
Definition reasonByPriority
    (highPriority leaderMissing notetakerMissing
     pastDue notesMissing recordingMissing : bool) : option string :=
  if highPriority && leaderMissing then
    Some (if notetakerMissing
          then "Needs a leader and a notetaker to volunteer"
          else "Needs a leader  to volunteer")
  else if highPriority && notetakerMissing then
    Some "Needs a notetaker to volunteer"
  else if pastDue && notesMissing then Some "Needs notes"
  else if pastDue && recordingMissing then Some "Needs a rewatch recording"
  else None.

(** ** Sample data *)

Module Fixtures.

(** 2024-05-01T10:00:00.000Z *)
Definition may1 : Z := 1714557600000.
Definition may1Text : string := "2024-05-01T10:00:00.000Z".
Definition halfDayMs : Z := 1000 * 60 * 60 * 12.

Definition recordingComment : Comment :=
  {| body := "Recording: https://github.rewatch.com/video/abc" |}.
Definition notesComment : Comment :=
  {| body := "Notes: https://github.com/github/accessibility/blob/main/docs/deep-dive-notes/2024-05-01.md" |}.
Definition chatComment : Comment := {| body := "Thanks all!" |}.

(** A client with no issues whose comment lists are empty. *)
Definition quietKit : Kit :=
  {| paginateIssues := fun _ _ _ _ => Sync [];
     paginateComments := fun _ _ _ => Async (Fulfilled []) |}.

(** A client whose every issue carries a recording and a notes comment. *)
Definition answeredKit : Kit :=
  {| paginateIssues := fun _ _ _ _ => Sync [];
     paginateComments := fun _ _ _ =>
       Async (Fulfilled [chatComment; recordingComment; notesComment]) |}.

End Fixtures.

Module Bodies.
Import Fixtures.

(** A Timing section whose whole content is a date-time stamp. *)
Definition stampOnly : string := "## Timing" ++ may1Text ++ "[Google Event".

Definition timing : string :=
  "## Timing" ++ newline ++ may1Text ++ newline
  ++ "[Google Event](https://calendar.example/event)" ++ newline.

(** Both roles taken. *)
Definition rolesFilled : string :=
  "Leader: Alice" ++ newline ++ "Notetaker: Bob" ++ newline.

(** Both role lines empty. *)
Definition rolesEmpty : string :=
  "Leader:" ++ newline ++ "Notetaker:" ++ newline.

(** Leader taken, notetaker line empty. *)
Definition notetakerEmpty : string :=
  "Leader: Alice" ++ newline ++ "Notetaker:" ++ newline.

Definition issue (n : Z) (text : string) : Issue :=
  {| issue_id := n;
     issue_url := "https://github.example/issues/1";
     issue_title := "Focus order";
     issue_body := text |}.

End Bodies.

Module Kits.
Import Fixtures Bodies.

(** A client that lists the given issues for every repository and has no
    comments. *)
Definition listing (issues : list Issue) : Kit :=
  {| paginateIssues := fun _ _ _ _ => Sync issues;
     paginateComments := fun _ _ _ => Async (Fulfilled []) |}.

(** The same for the owner ["github"], a failing client for any other. *)
Definition listingForGithub (issues : list Issue) : Kit :=
  {| paginateIssues := fun owner _ _ _ =>
       if String.eqb owner "github" then Sync issues
       else Async (Rejected (Error "Not Found"));
     paginateComments := fun owner _ _ =>
       if String.eqb owner "github" then Async (Fulfilled [])
       else Async (Rejected (Error "Not Found")) |}.

(** What the octokit client does: [paginate] returns a promise. *)
Definition promising (issues : list Issue) : Kit :=
  {| paginateIssues := fun _ _ _ _ => Async (Fulfilled issues);
     paginateComments := fun _ _ _ => Async (Fulfilled []) |}.

End Kits.

Module Records.

(** The first formatter scenario of the specification: no [missingUpdates]. *)
Definition urgent : DeepDiveIssueUpdate :=
  {| id := 1; url := "U"; dueDate := "2024-05-01T10:00:00.000Z";
     highPriority := Some true;
     missingFields := Some {| leader := Some true; notetaker := Some true |};
     missingUpdates := None;
     title := "T" |}.

(** The second one: no [missingFields]. *)
Definition late : DeepDiveIssueUpdate :=
  {| id := 1; url := "U"; dueDate := "2024-05-01T10:00:00.000Z";
     highPriority := Some false;
     missingFields := None;
     missingUpdates := Some {| pastDue := Some true;
                               needsRecording := None;
                               needsNotes := Some true |};
     title := "T" |}.

(** A high-priority record with the leader missing only and the follow-ups
    outstanding. *)
Definition full : DeepDiveIssueUpdate :=
  {| id := 1; url := "U"; dueDate := "2024-05-01T10:00:00.000Z";
     highPriority := Some true;
     missingFields := Some {| leader := Some true; notetaker := Some false |};
     missingUpdates := Some {| pastDue := Some true;
                               needsRecording := Some true;
                               needsNotes := Some true |};
     title := "T" |}.

(** A record with nothing to report. *)
Definition settled : DeepDiveIssueUpdate :=
  {| id := 1; url := "U"; dueDate := "2024-05-01T10:00:00.000Z";
     highPriority := None;
     missingFields := Some {| leader := Some true; notetaker := Some true |};
     missingUpdates := Some {| pastDue := Some true;
                               needsRecording := Some false;
                               needsNotes := Some false |};
     title := "T" |}.

(** A record with neither sub-record; both are optional in the interface. *)
Definition bare : DeepDiveIssueUpdate :=
  {| id := 1; url := "U"; dueDate := "2024-05-01T10:00:00.000Z";
     highPriority := None;
     missingFields := None;
     missingUpdates := None;
     title := "T" |}.

End Records.

(** Two sample issues: one without a Timing section, one sound. *)
Definition sampleIssues : list Issue :=
  [Bodies.issue 1 Bodies.rolesFilled;
   Bodies.issue 7 (Bodies.timing ++ Bodies.rolesFilled)].


(** ** Definitions for the round trip of a date through its ISO string *)

Module DateChecks.
Import JsDate.

(** The civil date of a day of the 400-year era, the year counted within
    the era: [civilFromDays] without the era. *)
Definition civilOfDoe (doe : Z) : Z * Z * Z :=
  let yoe := (doe - doe / 1460 + doe / 36524 - doe / 146096) / 365 in
  let doy := doe - (365 * yoe + yoe / 4 - yoe / 100) in
  let mp := (5 * doy + 2) / 153 in
  let d := doy - (153 * mp + 2) / 5 + 1 in
  let m := if mp <? 10 then mp + 3 else mp - 9 in
  (if m <=? 2 then yoe + 1 else yoe, m, d).

(** The decimal digit of the units of [k], as a character. *)
Definition digitChar (k : Z) : ascii := ascii_of_nat (48 + Z.to_nat (k mod 10)).

(** A text of the shape [YYYY-MM-DDTHH:mm:ss.sssZ]. *)
Definition stamp (y3 y2 y1 y0 mo1 mo0 d1 d0 h1 h0 mi1 mi0 s1 s0 ms2 ms1 ms0 : ascii)
  : string :=
  string_of_list_ascii
    [y3; y2; y1; y0; "-"%char; mo1; mo0; "-"%char; d1; d0; "T"%char;
     h1; h0; ":"%char; mi1; mi0; ":"%char; s1; s0; "."%char;
     ms2; ms1; ms0; "Z"%char].

(** What [isoParse] makes of the seven fields of such a text. *)
Definition fromFields (y mo d h mi sec ms : Z) : option Z :=
  if (1 <=? mo) && (mo <=? 12) && (1 <=? d) && (d <=? daysInMonth y mo)
     && ((h <=? 23) || ((h =? 24) && (mi =? 0) && (sec =? 0) && (ms =? 0)))
     && (mi <=? 59) && (sec <=? 59)
  then Some (daysFromCivil y mo d * msPerDay
             + h * 3600000 + mi * 60000 + sec * 1000 + ms)
  else None.

End DateChecks.

(** * Properties *)

(** ** Dates *)

Example isoParse_may1 :
  JsDate.isoParse "2024-05-01T10:00:00.000Z" = Some 1714557600000.
Proof. vm_compute. reflexivity. Qed.

Example isoString_may1 :
  JsDate.isoString 1714557600000 = "2024-05-01T10:00:00.000Z".
Proof. vm_compute. reflexivity. Qed.

Example isoString_before_epoch :
  JsDate.isoString (-1) = "1969-12-31T23:59:59.999Z".
Proof. vm_compute. reflexivity. Qed.

Example isoString_leap_day :
  JsDate.isoParse "2024-02-29T23:59:59.999Z" = Some 1709251199999
  /\ JsDate.isoString 1709251199999 = "2024-02-29T23:59:59.999Z"
  /\ JsDate.isoParse "2023-02-29T00:00:00.000Z" = None.
Proof. repeat split; vm_compute; reflexivity. Qed.

(** ** Strings *)

Module JsStringFacts.
Import JsString.

Lemma app_assoc (a b c : string) : (a ++ b) ++ c = a ++ (b ++ c).
Proof. induction a as [|x a IH]; simpl; [reflexivity | now rewrite IH]. Qed.

Lemma app_nil_r (a : string) : a ++ "" = a.
Proof. induction a as [|x a IH]; simpl; [reflexivity | now rewrite IH]. Qed.

Lemma startsWith_app (p post : string) : startsWith p (p ++ post) = true.
Proof.
  induction p as [|x p IH]; simpl; [reflexivity|].
  now rewrite Ascii.eqb_refl, IH.
Qed.

Lemma startsWith_inv (p s : string) :
  startsWith p s = true -> exists post, s = p ++ post.
Proof.
  revert s; induction p as [|x p IH]; intros s H.
  - now exists s.
  - destruct s as [|y s]; simpl in H; [discriminate|].
    apply andb_true_iff in H as [Hxy Hrest].
    apply Ascii.eqb_eq in Hxy; subst y.
    destruct (IH _ Hrest) as [post ->].
    now exists post.
Qed.

Lemma startsWith_iff (p s : string) :
  startsWith p s = true <-> exists post, s = p ++ post.
Proof.
  split; [apply startsWith_inv | intros [post ->]; apply startsWith_app].
Qed.


Lemma includes_unfold (needle s : string) :
  includes needle s
  = startsWith needle s
    || match s with EmptyString => false | String _ s' => includes needle s' end.
Proof. now destruct s. Qed.

Lemma includes_iff (needle s : string) :
  includes needle s = true <-> occursIn needle s.
Proof.
  unfold occursIn; split.
  - induction s as [|c s IH]; simpl; intros H.
    + rewrite orb_false_r in H.
      apply startsWith_inv in H as [post E]. now exists "", post.
    + apply orb_true_iff in H as [H|H].
      * apply startsWith_inv in H as [post E]. now exists "", post.
      * destruct (IH H) as (pre & post & ->). now exists (String c pre), post.
  - intros (pre & post & ->).
    induction pre as [|c pre IH]; simpl.
    + now rewrite includes_unfold, startsWith_app.
    + now rewrite IH, orb_true_r.
Qed.

End JsStringFacts.

(** ** The regular expressions *)

(** The language refuses each of the three literals, whatever engine runs
    it: in each the special group opens with an [s] and a closing
    parenthesis. *)
Lemma ecmaScript_refuses (exec : Regex.Literal -> Regex.Matcher)
    (l : Regex.Literal) :
  Regex.ecmaScript exec l = None.
Proof. destruct l; reflexivity. Qed.

(** The rule accepts the groups the language has. *)
Example groupsWellFormed_samples :
  Regex.groupsWellFormed "## Timing(?s:.*)\[Google Event" = true
  /\ Regex.groupsWellFormed "## Timing(?:.|\n)*\[Google Event" = true
  /\ Regex.groupsWellFormed "a(?=b)(?!c)(?<=d)(?<n>e)\(?s)" = true
  /\ Regex.groupsWellFormed "## Timing(?s)" = false.
Proof. repeat split; reflexivity. Qed.

(** ** The status evaluator *)

Section StatusEvaluator.

Import JsString JsStringFacts.

Variable legacyParse : string -> option Z.
Variable kit : Kit.

Lemma fold_visitComment (comments : list Comment) (r n : bool) :
  fold_left visitComment comments (r, n)
  = (r && negb (existsb mentionsRecording comments),
     n && negb (existsb mentionsNotes comments)).
Proof.
  revert r n; induction comments as [|c cs IH]; intros r n; simpl.
  - now rewrite !andb_true_r.
  - rewrite IH. unfold mentionsRecording, mentionsNotes.
    destruct (includes "github.rewatch.com" (body c)),
             (includes "/accessibility/blob/main/docs/deep-dive-notes/" (body c));
      simpl; now rewrite ?andb_false_r.
Qed.

Lemma scanComments_flags (comments : list Comment) :
  scanComments comments
  = (negb (existsb mentionsRecording comments),
     negb (existsb mentionsNotes comments)).
Proof. unfold scanComments. now rewrite fold_visitComment. Qed.

Lemma negb_existsb_false {A} (f : A -> bool) (xs : list A) :
  negb (existsb f xs) = false <-> exists x, In x xs /\ f x = true.
Proof. rewrite negb_false_iff. apply existsb_exists. Qed.

(** The flag [pastDue] is the comparison of line 42, whatever happens next. *)
Lemma getMissingUpdates_pastDue (now : Z) (dueDate : string) (issueId : Z)
    (owner repo : string) (updates : MissingUpdates) (calls : list Request) :
  getMissingUpdates legacyParse kit now dueDate issueId owner repo
  = (Fulfilled updates, calls) ->
  pastDue updates = Some (withinOneDay legacyParse now dueDate).
Proof.
  unfold getMissingUpdates.
  destruct (withinOneDay legacyParse now dueDate) eqn:E; simpl.
  - destruct (await (paginateComments kit owner repo issueId)); [|discriminate].
    destruct (scanComments a). now intros [= <- _].
  - now intros [= <- _].
Qed.

(** The two optional flags are set only on the branch where [pastDue] is. *)
Lemma needs_only_when_pastDue (now : Z) (dueDate : string) (issueId : Z)
    (owner repo : string) (updates : MissingUpdates) (calls : list Request) :
  getMissingUpdates legacyParse kit now dueDate issueId owner repo
  = (Fulfilled updates, calls) ->
  needsRecording updates <> None \/ needsNotes updates <> None ->
  pastDue updates = Some true.
Proof.
  unfold getMissingUpdates.
  destruct (withinOneDay legacyParse now dueDate) eqn:E; simpl.
  - destruct (await (paginateComments kit owner repo issueId)); [|discriminate].
    destruct (scanComments a). now intros [= <- _].
  - intros [= <- _]; simpl. intros [H|H]; congruence.
Qed.

(** C3: for a due date in the past whose comments are fetched, both flags
    start out true and each is cleared exactly when some comment body
    contains its substring; so an empty comment list leaves both true, and a
    recording comment together with a notes comment clears both. *)
Theorem getMissingUpdates_scans_comments (now : Z) (dueDate : string)
    (issueId : Z) (owner repo : string) (t : Z) (comments : list Comment) :
  JsDate.getTime legacyParse dueDate = Some t ->
  t < now ->
  await (paginateComments kit owner repo issueId) = Return comments ->
  exists needsRecording needsNotes : bool,
    getMissingUpdates legacyParse kit now dueDate issueId owner repo
    = (Fulfilled {| pastDue := Some true;
                    needsRecording := Some needsRecording;
                    needsNotes := Some needsNotes |},
       [GetComments owner repo issueId])
    /\ (needsRecording = false <->
        exists c, In c comments /\ occursIn "github.rewatch.com" (body c))
    /\ (needsNotes = false <->
        exists c, In c comments
                  /\ occursIn "/accessibility/blob/main/docs/deep-dive-notes/"
                              (body c))
    /\ (comments = [] -> needsRecording = true /\ needsNotes = true).
Proof.
  intros Ht Hpast Hfetch.
  exists (negb (existsb mentionsRecording comments)),
         (negb (existsb mentionsNotes comments)).
  assert (withinOneDay legacyParse now dueDate = true) as Hdue.
  { unfold withinOneDay. rewrite Ht. apply Z.leb_le. unfold oneDayMs. lia. }
  split; [|split; [|split]].
  - unfold getMissingUpdates. rewrite Hdue, Hfetch, scanComments_flags.
    reflexivity.
  - rewrite negb_existsb_false. unfold mentionsRecording.
    split; intros (c & Hin & Hc); exists c; (split; [exact Hin|]);
      now apply includes_iff.
  - rewrite negb_existsb_false. unfold mentionsNotes.
    split; intros (c & Hin & Hc); exists c; (split; [exact Hin|]);
      now apply includes_iff.
  - now intros ->.
Qed.

(** C4: a due date more than one day ahead of the clock gives exactly
    [{pastDue: false}], and no request is sent to the client. *)
Theorem getMissingUpdates_future_no_fetch (now : Z) (dueDate : string)
    (issueId : Z) (owner repo : string) (t : Z) :
  JsDate.getTime legacyParse dueDate = Some t ->
  oneDayMs < t - now ->
  getMissingUpdates legacyParse kit now dueDate issueId owner repo
  = (Fulfilled {| pastDue := Some false;
                  needsRecording := None;
                  needsNotes := None |}, []).
Proof.
  intros Ht Hfar. unfold getMissingUpdates, withinOneDay. rewrite Ht.
  assert ((t - now <=? oneDayMs) = false) as -> by (apply Z.leb_gt; exact Hfar).
  reflexivity.
Qed.

End StatusEvaluator.

Lemma getMissingUpdates_scans_comments_witness :
  exists needsRecording needsNotes : bool,
    getMissingUpdates JsDate.strictEngine Fixtures.answeredKit
                      (Fixtures.may1 + 1) Fixtures.may1Text 7 "github" "accessibility"
    = (Fulfilled {| pastDue := Some true;
                    needsRecording := Some needsRecording;
                    needsNotes := Some needsNotes |},
       [GetComments "github" "accessibility" 7])
    /\ (needsRecording = false <->
        exists c, In c [Fixtures.chatComment; Fixtures.recordingComment;
                        Fixtures.notesComment]
                  /\ JsString.occursIn "github.rewatch.com" (body c))
    /\ (needsNotes = false <->
        exists c, In c [Fixtures.chatComment; Fixtures.recordingComment;
                        Fixtures.notesComment]
                  /\ JsString.occursIn
                       "/accessibility/blob/main/docs/deep-dive-notes/" (body c))
    /\ ([Fixtures.chatComment; Fixtures.recordingComment; Fixtures.notesComment]
        = [] -> needsRecording = true /\ needsNotes = true).
Proof.
  apply (@getMissingUpdates_scans_comments JsDate.strictEngine
           Fixtures.answeredKit (Fixtures.may1 + 1) Fixtures.may1Text 7
           "github" "accessibility" Fixtures.may1).
  - vm_compute. reflexivity.
  - vm_compute. reflexivity.
  - reflexivity.
Defined.

(** With a recording comment and a notes comment both flags are cleared;
    with no comment both stay set. *)
Example getMissingUpdates_answered :
  getMissingUpdates JsDate.strictEngine Fixtures.answeredKit
                    (Fixtures.may1 + 1) Fixtures.may1Text 7 "github" "accessibility"
  = (Fulfilled {| pastDue := Some true;
                  needsRecording := Some false;
                  needsNotes := Some false |},
     [GetComments "github" "accessibility" 7]).
Proof. vm_compute. reflexivity. Qed.

Example getMissingUpdates_unanswered :
  getMissingUpdates JsDate.strictEngine Fixtures.quietKit
                    (Fixtures.may1 + 1) Fixtures.may1Text 7 "github" "accessibility"
  = (Fulfilled {| pastDue := Some true;
                  needsRecording := Some true;
                  needsNotes := Some true |},
     [GetComments "github" "accessibility" 7]).
Proof. vm_compute. reflexivity. Qed.

Lemma getMissingUpdates_future_no_fetch_witness :
  getMissingUpdates JsDate.strictEngine Fixtures.answeredKit
                    (Fixtures.may1 - 3 * oneDayMs) Fixtures.may1Text 7
                    "github" "accessibility"
  = (Fulfilled {| pastDue := Some false;
                  needsRecording := None;
                  needsNotes := None |}, []).
Proof.
  apply (@getMissingUpdates_future_no_fetch JsDate.strictEngine
           Fixtures.answeredKit (Fixtures.may1 - 3 * oneDayMs)
           Fixtures.may1Text 7 "github" "accessibility" Fixtures.may1).
  - vm_compute. reflexivity.
  - vm_compute. reflexivity.
Defined.

(** C2: the claim makes [pastDue] mean "due at or before one day ago", which
    is what the comment of line 41 says.  The comparison of line 42 is
    "due at most one day ahead": for a deep dive due at this very instant the
    due date is not at or before one day ago, yet [pastDue] is set and the
    comments are fetched. *)
Theorem pastDue_set_for_a_date_due_now :
  JsDate.getTime JsDate.strictEngine Fixtures.may1Text = Some Fixtures.may1
  /\ ~ (Fixtures.may1 <= Fixtures.may1 - oneDayMs)
  /\ getMissingUpdates JsDate.strictEngine Fixtures.quietKit
                       Fixtures.may1 Fixtures.may1Text 7 "github" "accessibility"
     = (Fulfilled {| pastDue := Some true;
                     needsRecording := Some true;
                     needsNotes := Some true |},
        [GetComments "github" "accessibility" 7]).
Proof.
  split; [vm_compute; reflexivity|].
  split; [unfold oneDayMs; lia|].
  vm_compute. reflexivity.
Qed.

(** The comparison in general: [pastDue] holds for every due date up to one
    day ahead of the clock. *)
Lemma withinOneDay_iff (legacyParse : string -> option Z) (now : Z)
    (dueDate : string) :
  withinOneDay legacyParse now dueDate = true
  <-> exists t, JsDate.getTime legacyParse dueDate = Some t
                /\ t <= now + oneDayMs.
Proof.
  unfold withinOneDay.
  destruct (JsDate.getTime legacyParse dueDate) as [t|].
  - rewrite Z.leb_le. split.
    + intros H. exists t. split; [reflexivity | lia].
    + intros (t' & [= <-] & H). lia.
  - split; [discriminate | now intros (t & H & _)].
Qed.

(** ** The text extractors *)

Section Extractors.

Variable exec : Regex.Literal -> Regex.Matcher.
Variable legacyParse : string -> option Z.

(** With the regular expressions of the language the due-date extraction
    stops at its literal, for every body and every engine. *)
Lemma getDueDate_refused (issueBody : string) :
  getDueDateFromDeepDiveBody (Regex.ecmaScript exec) legacyParse issueBody
  = Throw (SyntaxError (Regex.invalidGroup Regex.TimingLiteral)).
Proof. reflexivity. Qed.

(** So does the missing-fields extraction, at the first of its two
    literals. *)
Lemma getMissingFields_refused (issueBody : string) :
  getMissingFieldsFromDeepDiveBody (Regex.ecmaScript exec) issueBody
  = Throw (SyntaxError (Regex.invalidGroup Regex.NotetakerLiteral)).
Proof. reflexivity. Qed.

End Extractors.

(** C6: for a body with a well-formed Timing section the claim has the
    extraction return the date of the section.  The literal of line 22
    holds a group the language does not have.  The module is refused at
    that literal when it is read; and the function taken alone returns for
    no body, under any engine: not for a section that holds a date-time
    stamp on a line of its own, nor for one that holds nothing but the
    stamp. *)
Theorem dueDate_extraction_refused :
  JsDate.isoParse "2024-05-01T10:00:00.000Z" = Some Fixtures.may1
  /\ JsDate.isoString Fixtures.may1 = "2024-05-01T10:00:00.000Z"
  /\ Regex.groupsWellFormed (Regex.pattern Regex.TimingLiteral) = false
  /\ (forall exec,
         parseModule (Regex.ecmaScript exec)
         = Throw (SyntaxError "Invalid regular expression: /## Timing(?s)(.*)\[Google Event/g: Invalid group"))
  /\ (forall exec legacyParse issueBody,
         getDueDateFromDeepDiveBody (Regex.ecmaScript exec) legacyParse
                                    issueBody
         = Throw (SyntaxError "Invalid regular expression: /## Timing(?s)(.*)\[Google Event/g: Invalid group"))
  /\ (forall exec legacyParse,
         getDueDateFromDeepDiveBody (Regex.ecmaScript exec) legacyParse
                                    Bodies.timing
         = getDueDateFromDeepDiveBody (Regex.ecmaScript exec) legacyParse
                                      Bodies.stampOnly).
Proof.
  split; [vm_compute; reflexivity|].
  split; [vm_compute; reflexivity|].
  split; [reflexivity|].
  split; [intros exec; reflexivity|].
  split; intros; reflexivity.
Qed.

(** C7: the claim has the extraction report a role as assigned exactly
    when its line is not empty.  The literals of lines 31 and 32 hold a
    group the language does not have.  The module is refused when it is
    read, at its first literal; and the function taken alone reports
    nothing, under any engine: it stops at the literal of line 31 for
    every body, for one with both role lines empty as for one with both
    roles taken. *)
Theorem missingFields_extraction_refused :
  Regex.groupsWellFormed (Regex.pattern Regex.NotetakerLiteral) = false
  /\ Regex.groupsWellFormed (Regex.pattern Regex.LeaderLiteral) = false
  /\ (forall exec,
         parseModule (Regex.ecmaScript exec)
         = Throw (SyntaxError (Regex.invalidGroup Regex.TimingLiteral)))
  /\ (forall exec issueBody,
         getMissingFieldsFromDeepDiveBody (Regex.ecmaScript exec) issueBody
         = Throw (SyntaxError "Invalid regular expression: /Notetaker:(?s)(.*)?/g: Invalid group"))
  /\ (forall exec,
         getMissingFieldsFromDeepDiveBody (Regex.ecmaScript exec)
                                          Bodies.rolesEmpty
         = getMissingFieldsFromDeepDiveBody (Regex.ecmaScript exec)
                                            Bodies.rolesFilled).
Proof.
  split; [reflexivity|]. split; [reflexivity|].
  split; [intros exec; reflexivity|].
  split; intros; reflexivity.
Qed.

(** ** The issue collector *)


Section Collector.

Variable regexp : Regex.Dialect.
Variable legacyParse : string -> option Z.

Lemma assembleIssue_highPriority (now : Z) (issue : Issue) (dueDate : string)
    (updates : MissingUpdates) (fields : MissingFields) :
  highPriority (assembleIssue legacyParse now issue dueDate updates fields)
  = if withinOneDay legacyParse now dueDate && truthy (leader fields)
    then Some true else None.
Proof.
  unfold assembleIssue. rewrite orb_diag.
  now destruct (withinOneDay legacyParse now dueDate && truthy (leader fields)).
Qed.

Lemma assembleIssue_fields (now : Z) (issue : Issue) (due : string)
    (updates : MissingUpdates) (fields : MissingFields) :
  let u := assembleIssue legacyParse now issue due updates fields in
  missingFields u = Some fields /\ missingUpdates u = Some updates
  /\ dueDate u = due /\ id u = issue_id issue
  /\ url u = issue_url issue /\ title u = issue_title issue.
Proof.
  unfold assembleIssue.
  now destruct (withinOneDay legacyParse now due
                && (truthy (leader fields) || truthy (leader fields))).
Qed.

Variable kit : Kit.

Lemma mapIssues_length (clock : Clock) (owner repo : string) (position : nat)
    (issues : list Issue) :
  List.length (fst (mapIssues regexp legacyParse kit clock owner repo position issues))
  = List.length issues.
Proof.
  revert position; induction issues as [|issue rest IH]; intros position;
    simpl; [reflexivity|].
  destruct (mapIssue regexp legacyParse kit (clock position) owner repo issue).
  specialize (IH (S position)).
  destruct (mapIssues regexp legacyParse kit clock owner repo (S position) rest).
  simpl in *. now rewrite IH.
Qed.

(** A throw of the due-date extraction rejects the promise of the callback
    and of nothing else. *)
Lemma mapIssue_dueDate_throws (readings : Readings) (owner repo : string)
    (issue : Issue) (e : JsError) :
  getDueDateFromDeepDiveBody regexp legacyParse (issue_body issue) = Throw e ->
  mapIssue regexp legacyParse kit readings owner repo issue = (Rejected e, []).
Proof. intros H. unfold mapIssue. now rewrite H. Qed.

Lemma mapIssues_rejected_at (clock : Clock) (owner repo : string)
    (issues : list Issue) :
  forall (position k : nat) (issue : Issue) (e : JsError),
  nth_error issues k = Some issue ->
  getDueDateFromDeepDiveBody regexp legacyParse (issue_body issue) = Throw e ->
  nth_error (fst (mapIssues regexp legacyParse kit clock owner repo position
                            issues)) k
  = Some (Rejected e).
Proof.
  induction issues as [|first rest IH]; intros position k issue e Hk He.
  - now destruct k.
  - cbn [mapIssues].
    destruct (mapIssue regexp legacyParse kit (clock position) owner repo first)
      as [p calls] eqn:Efirst.
    specialize (IH (S position)).
    destruct (mapIssues regexp legacyParse kit clock owner repo (S position)
                        rest) as [ps calls'].
    destruct k as [|k]; cbn [fst nth_error] in *.
    + injection Hk as ->.
      rewrite (mapIssue_dueDate_throws (clock position) owner repo issue He)
        in Efirst.
      now injection Efirst as <- _.
    + exact (IH k issue e Hk He).
Qed.

(** With an array for a reply the collector is fulfilled, whatever happens
    to the single issues: it holds one promise per issue. *)
Lemma getDeepDiveIssues_fulfilled (clock : Clock) (owner repo : string)
    (issues : list Issue) :
  paginateIssues kit owner repo "Deep-dive" "open" = Sync issues ->
  exists promises calls,
    getDeepDiveIssues regexp legacyParse kit clock owner repo
    = (Fulfilled promises, calls)
    /\ List.length promises = List.length issues.
Proof.
  intros H. unfold getDeepDiveIssues. rewrite H.
  pose proof (mapIssues_length clock owner repo 0 issues) as Hlen.
  destruct (mapIssues regexp legacyParse kit clock owner repo 0 issues)
    as [ps calls].
  exists ps, (GetIssues owner repo "Deep-dive" "open" :: calls).
  split; [reflexivity | exact Hlen].
Qed.

(** With a promise for a reply the collector is rejected: a promise has no
    [map]. *)
Lemma getDeepDiveIssues_promise_reply (clock : Clock) (owner repo : string)
    (p : Settled (list Issue)) :
  paginateIssues kit owner repo "Deep-dive" "open" = Async p ->
  fst (getDeepDiveIssues regexp legacyParse kit clock owner repo)
  = Rejected (TypeError "kit.paginate(...).map is not a function").
Proof. intros H. unfold getDeepDiveIssues. now rewrite H. Qed.

(** The entry point formats the promises themselves: with at least one issue
    it is rejected, with none it is fulfilled with the empty string. *)
Lemma formatDeepDiveUpdate_promise (p : Settled DeepDiveIssueUpdate) :
  formatDeepDiveUpdate (PromiseOf p)
  = Throw (TypeError "Cannot read properties of undefined (reading 'pastDue')").
Proof. reflexivity. Qed.

Lemma entryPoint_nonempty (clock : Clock) (owner repo : string)
    (issue : Issue) (rest : list Issue) :
  paginateIssues kit owner repo "Deep-dive" "open" = Sync (issue :: rest) ->
  fst (getAndFormatDeepDiveUpdates regexp legacyParse kit clock owner repo)
  = Rejected
      (TypeError "Cannot read properties of undefined (reading 'pastDue')").
Proof.
  intros H. unfold getAndFormatDeepDiveUpdates, getDeepDiveIssues.
  rewrite H. simpl mapIssues.
  destruct (mapIssue regexp legacyParse kit (clock 0%nat) owner repo issue).
  destruct (mapIssues regexp legacyParse kit clock owner repo 1 rest).
  reflexivity.
Qed.

Lemma entryPoint_empty (clock : Clock) (owner repo : string) :
  paginateIssues kit owner repo "Deep-dive" "open" = Sync [] ->
  fst (getAndFormatDeepDiveUpdates regexp legacyParse kit clock owner repo)
  = Fulfilled "".
Proof.
  intros H. unfold getAndFormatDeepDiveUpdates, getDeepDiveIssues.
  now rewrite H.
Qed.

End Collector.

(** With the regular expressions of the language the callback is rejected
    at the due-date extraction, before the clock is read or a request is
    sent. *)
Lemma mapIssue_refused (exec : Regex.Literal -> Regex.Matcher)
    (legacyParse : string -> option Z) (kit : Kit) (readings : Readings)
    (owner repo : string) (issue : Issue) :
  mapIssue (Regex.ecmaScript exec) legacyParse kit readings owner repo issue
  = (Rejected (SyntaxError (Regex.invalidGroup Regex.TimingLiteral)), []).
Proof. reflexivity. Qed.

Lemma mapIssues_refused (exec : Regex.Literal -> Regex.Matcher)
    (legacyParse : string -> option Z) (kit : Kit) (clock : Clock)
    (owner repo : string) (issues : list Issue) :
  forall position,
  mapIssues (Regex.ecmaScript exec) legacyParse kit clock owner repo position
            issues
  = (map (fun _ => Rejected (SyntaxError
                               (Regex.invalidGroup Regex.TimingLiteral)))
         issues, []).
Proof.
  induction issues as [|issue rest IH]; intros position; [reflexivity|].
  cbn [mapIssues]. rewrite mapIssue_refused, IH. reflexivity.
Qed.

(** C1: the claim has an issue due within a day whose notetaker alone is
    missing flagged high priority.  No issue gets a record at all: the
    callback is rejected at the literal of line 22 for every issue, under
    every engine, so the collector holds a rejected promise for the issue
    of the claim, due twelve hours ahead with the leader taken and the
    notetaker line empty, and line 94 is never reached. *)
Theorem no_issue_is_flagged :
  (forall exec legacyParse kit readings owner repo issue,
      mapIssue (Regex.ecmaScript exec) legacyParse kit readings owner repo
               issue
      = (Rejected (SyntaxError "Invalid regular expression: /## Timing(?s)(.*)\[Google Event/g: Invalid group"), []))
  /\ (forall exec legacyParse,
         getDeepDiveIssues (Regex.ecmaScript exec) legacyParse
           (Kits.listing
              [Bodies.issue 7 (Bodies.timing ++ Bodies.notetakerEmpty)])
           (steady (Fixtures.may1 - Fixtures.halfDayMs))
           "github" "accessibility"
         = (Fulfilled [Rejected (SyntaxError "Invalid regular expression: /## Timing(?s)(.*)\[Google Event/g: Invalid group")],
            [GetIssues "github" "accessibility" "Deep-dive" "open"])).
Proof. split; intros; reflexivity. Qed.

(** C8: the claim has the collector reject when one issue fails.  With a
    client that hands back an array, the collector is fulfilled whenever
    the due-date extraction throws for an issue of the array, whatever the
    regular expressions and the date engine do: its array holds one
    promise per issue, and the promise at the place of the failing issue is
    rejected with the error thrown.  The entry point is rejected, by the
    [TypeError] of formatting a promise object. *)
Theorem failed_issue_does_not_reject_the_collector
    (regexp : Regex.Dialect) (legacyParse : string -> option Z) (kit : Kit)
    (clock : Clock) (owner repo : string) (issues : list Issue)
    (position : nat) (issue : Issue) (e : JsError) :
  paginateIssues kit owner repo "Deep-dive" "open" = Sync issues ->
  nth_error issues position = Some issue ->
  getDueDateFromDeepDiveBody regexp legacyParse (issue_body issue) = Throw e ->
  exists promises requests,
    getDeepDiveIssues regexp legacyParse kit clock owner repo
    = (Fulfilled promises, requests)
    /\ List.length promises = List.length issues
    /\ nth_error promises position = Some (Rejected e)
    /\ fst (getAndFormatDeepDiveUpdates regexp legacyParse kit clock owner
                                        repo)
       = Rejected
           (TypeError "Cannot read properties of undefined (reading 'pastDue')").
Proof.
  intros Hreply Hissue Hthrow.
  pose proof (@mapIssues_length regexp legacyParse kit clock owner repo 0
                issues) as Hlen.
  pose proof (@mapIssues_rejected_at regexp legacyParse kit clock owner repo
                issues 0 position issue e Hissue Hthrow) as Hat.
  assert (fst (getAndFormatDeepDiveUpdates regexp legacyParse kit clock owner
                                           repo)
          = Rejected
              (TypeError "Cannot read properties of undefined (reading 'pastDue')"))
    as Hentry.
  { destruct issues as [|first rest]; [now destruct position|].
    exact (@entryPoint_nonempty regexp legacyParse kit clock owner repo
             first rest Hreply). }
  unfold getDeepDiveIssues. rewrite Hreply.
  destruct (mapIssues regexp legacyParse kit clock owner repo 0 issues)
    as [promises calls].
  exists promises, (GetIssues owner repo "Deep-dive" "open" :: calls).
  repeat split; assumption || reflexivity.
Qed.

(** The claim's case under the regular expressions of the language: the
    first of two issues has no Timing section. *)
Lemma failed_issue_does_not_reject_the_collector_witness :
  exists promises requests,
    getDeepDiveIssues (Regex.ecmaScript Regex.noMatch) JsDate.strictEngine
      (Kits.listing sampleIssues) (steady Fixtures.may1)
      "github" "accessibility"
    = (Fulfilled promises, requests)
    /\ List.length promises = List.length sampleIssues
    /\ nth_error promises 0
       = Some (Rejected (SyntaxError
                           (Regex.invalidGroup Regex.TimingLiteral)))
    /\ fst (getAndFormatDeepDiveUpdates (Regex.ecmaScript Regex.noMatch)
              JsDate.strictEngine (Kits.listing sampleIssues)
              (steady Fixtures.may1) "github" "accessibility")
       = Rejected
           (TypeError "Cannot read properties of undefined (reading 'pastDue')").
Proof.
  apply (@failed_issue_does_not_reject_the_collector
           (Regex.ecmaScript Regex.noMatch) JsDate.strictEngine
           (Kits.listing sampleIssues) (steady Fixtures.may1)
           "github" "accessibility" sampleIssues 0
           (Bodies.issue 1 Bodies.rolesFilled)
           (SyntaxError (Regex.invalidGroup Regex.TimingLiteral)));
    reflexivity.
Defined.

(** The same run in full: both promises are rejected at the literal of
    line 22, and the issue request is the only one sent. *)
Example collector_holds_rejected_promises :
  (forall exec legacyParse,
      getDeepDiveIssues (Regex.ecmaScript exec) legacyParse
        (Kits.listing sampleIssues) (steady Fixtures.may1)
        "github" "accessibility"
      = (Fulfilled [Rejected (SyntaxError "Invalid regular expression: /## Timing(?s)(.*)\[Google Event/g: Invalid group");
                    Rejected (SyntaxError "Invalid regular expression: /## Timing(?s)(.*)\[Google Event/g: Invalid group")],
         [GetIssues "github" "accessibility" "Deep-dive" "open"]))
  /\ (forall exec legacyParse,
         getAndFormatDeepDiveUpdates (Regex.ecmaScript exec) legacyParse
           (Kits.listing sampleIssues) (steady Fixtures.may1)
           "github" "accessibility"
         = (Rejected
              (TypeError "Cannot read properties of undefined (reading 'pastDue')"),
            [GetIssues "github" "accessibility" "Deep-dive" "open"])).
Proof. split; intros; reflexivity. Qed.

(** With a client whose [paginate] returns a promise, the collector is
    rejected before any issue is looked at. *)
Example collector_rejects_promise_reply :
  getDeepDiveIssues (Regex.ecmaScript Regex.noMatch) JsDate.strictEngine
    (Kits.promising sampleIssues) (steady Fixtures.may1)
    "github" "accessibility"
  = (Rejected (TypeError "kit.paginate(...).map is not a function"),
     [GetIssues "github" "accessibility" "Deep-dive" "open"]).
Proof. reflexivity. Qed.

(** ** The formatter *)

Section Formatter.

Import JsStringFacts.

Variable u : DeepDiveIssueUpdate.

Lemma reason_by_priority :
  (truthy (highPriority u) = true -> missingFields u <> None) ->
  (rolesDecide u = false -> missingUpdates u <> None) ->
  reason (Plain u)
  = Return (reasonByPriority
              (truthy (highPriority u))
              (truthy (leader (fieldsView u)))
              (truthy (notetaker (fieldsView u)))
              (truthy (pastDue (updatesView u)))
              (truthy (needsNotes (updatesView u)))
              (truthy (needsRecording (updatesView u)))).
Proof.
  unfold rolesDecide, fieldsView, updatesView, reason, reasonPastDue,
    reasonByPriority.
  simpl prop_highPriority. simpl prop_missingFields.
  simpl prop_missingUpdates.
  intros Hfields Hupdates.
  destruct (truthy (highPriority u));
    destruct (missingFields u) as [fields|];
    try (now exfalso; apply Hfields);
    try destruct (truthy (leader fields));
    try destruct (truthy (notetaker fields));
    try reflexivity;
    (destruct (missingUpdates u) as [updates|];
     [|now exfalso; apply Hupdates]);
    simpl;
    now destruct (truthy (pastDue updates)), (truthy (needsNotes updates)),
                 (truthy (needsRecording updates)).
Qed.

(** Where a sub-record the rules consult is absent, the read of its
    property throws. *)
Lemma reason_throws_without_fields :
  truthy (highPriority u) = true -> missingFields u = None ->
  formatDeepDiveUpdate (Plain u)
  = Throw (TypeError "Cannot read properties of undefined (reading 'leader')").
Proof.
  intros Hhp Hnone. unfold formatDeepDiveUpdate, reason. simpl.
  now rewrite Hhp, Hnone.
Qed.

(** C5, as amended: the line is the warning marker and "Tomorrow's" exactly
    when the record is high priority, then the title and the URL as a link, then a
    colon and the reason, the reason being chosen by the priority (a) leader
    missing (and notetaker), (b) notetaker missing, (c) notes missing,
    (d) recording missing, (e) none.  This holds for every record that
    carries the sub-records the rules consult: [missingFields] when it is
    high priority, [missingUpdates] when no rule on the roles decides. *)
Theorem formatDeepDiveUpdate_priority :
  (truthy (highPriority u) = true -> missingFields u <> None) ->
  (rolesDecide u = false -> missingUpdates u <> None) ->
  formatDeepDiveUpdate (Plain u)
  = Return (marker (truthy (highPriority u))
            ++ "[" ++ title u ++ "](" ++ url u ++ "): "
            ++ interpolate
                 (reasonByPriority
                    (truthy (highPriority u))
                    (truthy (leader (fieldsView u)))
                    (truthy (notetaker (fieldsView u)))
                    (truthy (pastDue (updatesView u)))
                    (truthy (needsNotes (updatesView u)))
                    (truthy (needsRecording (updatesView u))))).
Proof.
  intros Hfields Hupdates. unfold formatDeepDiveUpdate.
  now rewrite (reason_by_priority Hfields Hupdates).
Qed.

(** C10: when no rule gives a reason, the line ends with the text
    ": undefined". *)
Theorem formatDeepDiveUpdate_undefined_reason (updates : MissingUpdates) :
  missingUpdates u = Some updates ->
  (truthy (highPriority u) = false
   \/ exists fields, missingFields u = Some fields
                     /\ truthy (leader fields) = false
                     /\ truthy (notetaker fields) = false) ->
  (truthy (pastDue updates) = false
   \/ (truthy (needsNotes updates) = false
       /\ truthy (needsRecording updates) = false)) ->
  formatDeepDiveUpdate (Plain u)
  = Return ((marker (truthy (highPriority u))
             ++ "[" ++ title u ++ "](" ++ url u ++ ")")
            ++ ": undefined").
Proof.
  intros Hu Hrole Hlate.
  assert (reasonPastDue (Plain u) = Return None) as Hsecond.
  { unfold reasonPastDue. simpl. rewrite Hu.
    destruct Hlate as [-> | [-> ->]]; [reflexivity|].
    now destruct (truthy (pastDue updates)). }
  assert (reason (Plain u) = Return None) as Hreason.
  { unfold reason. simpl prop_highPriority. simpl prop_missingFields.
    destruct Hrole as [-> | (fields & -> & -> & ->)]; [exact Hsecond|].
    now destruct (truthy (highPriority u)). }
  unfold formatDeepDiveUpdate, marker. rewrite Hreason.
  simpl prop_highPriority. simpl prop_title. simpl prop_url.
  rewrite !app_assoc. reflexivity.
Qed.

End Formatter.


Lemma formatDeepDiveUpdate_priority_witness :
  formatDeepDiveUpdate (Plain Records.urgent)
  = Return ":warning: Tomorrow's [T](U): Needs a leader and a notetaker to volunteer".
Proof.
  apply (@formatDeepDiveUpdate_priority Records.urgent).
  - intros _. discriminate.
  - intros H. vm_compute in H. discriminate H.
Defined.

(** The same theorem at records that carry both sub-records. *)
Example format_full :
  formatDeepDiveUpdate (Plain Records.full)
  = Return ":warning: Tomorrow's [T](U): Needs a leader  to volunteer".
Proof.
  apply (@formatDeepDiveUpdate_priority Records.full); intros _; discriminate.
Qed.

Example format_late :
  formatDeepDiveUpdate (Plain Records.late) = Return "[T](U): Needs notes".
Proof.
  apply (@formatDeepDiveUpdate_priority Records.late).
  - intros H. vm_compute in H. discriminate H.
  - intros _. discriminate.
Qed.

(** C5, as stated for every update record, fails: both sub-records are
    optional in the interface, and for a record without them the formatter
    throws where the claim has it give the line with the reason
    "undefined". *)
Lemma formatDeepDiveUpdate_throws_on_bare_record :
  formatDeepDiveUpdate (Plain Records.bare)
  = Throw (TypeError "Cannot read properties of undefined (reading 'pastDue')")
  /\ ~ (forall u,
          formatDeepDiveUpdate (Plain u)
          = Return (marker (truthy (highPriority u))
                    ++ "[" ++ title u ++ "](" ++ url u ++ "): "
                    ++ interpolate
                         (reasonByPriority
                            (truthy (highPriority u))
                            (truthy (leader (fieldsView u)))
                            (truthy (notetaker (fieldsView u)))
                            (truthy (pastDue (updatesView u)))
                            (truthy (needsNotes (updatesView u)))
                            (truthy (needsRecording (updatesView u)))))).
Proof.
  split; [reflexivity|].
  intros H. specialize (H Records.bare). discriminate H.
Qed.

Lemma formatDeepDiveUpdate_undefined_reason_witness :
  formatDeepDiveUpdate (Plain Records.settled)
  = Return "[T](U): undefined".
Proof.
  apply (@formatDeepDiveUpdate_undefined_reason Records.settled
           {| pastDue := Some true;
              needsRecording := Some false;
              needsNotes := Some false |}).
  - reflexivity.
  - left. reflexivity.
  - right. split; reflexivity.
Defined.

(** ** Runs *)

(** The result of the entry point is decided by the reply to the issue
    request. *)
Lemma entryPoint_by_reply (regexp : Regex.Dialect)
    (legacyParse : string -> option Z) (kit : Kit) (clock : Clock)
    (owner repo : string) :
  fst (getAndFormatDeepDiveUpdates regexp legacyParse kit clock owner repo)
  = match paginateIssues kit owner repo "Deep-dive" "open" with
    | Sync [] => Fulfilled ""
    | Sync (_ :: _) =>
        Rejected
          (TypeError "Cannot read properties of undefined (reading 'pastDue')")
    | Async _ =>
        Rejected (TypeError "kit.paginate(...).map is not a function")
    end.
Proof.
  destruct (paginateIssues kit owner repo "Deep-dive" "open")
    as [[|issue rest]|p] eqn:E.
  - now apply entryPoint_empty.
  - now apply (@entryPoint_nonempty regexp legacyParse kit clock owner repo
                 issue rest E).
  - unfold getAndFormatDeepDiveUpdates, getDeepDiveIssues. now rewrite E.
Qed.

(** With the regular expressions of the language the collector is decided
    by the reply to the issue request as well, requests included. *)
Lemma getDeepDiveIssues_refused (exec : Regex.Literal -> Regex.Matcher)
    (legacyParse : string -> option Z) (kit : Kit) (clock : Clock)
    (owner repo : string) :
  getDeepDiveIssues (Regex.ecmaScript exec) legacyParse kit clock owner repo
  = match paginateIssues kit owner repo "Deep-dive" "open" with
    | Sync issues =>
        (Fulfilled
           (map (fun _ => Rejected (SyntaxError
                                      (Regex.invalidGroup Regex.TimingLiteral)))
                issues),
         [GetIssues owner repo "Deep-dive" "open"])
    | Async _ =>
        (Rejected (TypeError "kit.paginate(...).map is not a function"),
         [GetIssues owner repo "Deep-dive" "open"])
    end.
Proof.
  unfold getDeepDiveIssues.
  destruct (paginateIssues kit owner repo "Deep-dive" "open") as [issues|p];
    [|reflexivity].
  now rewrite mapIssues_refused.
Qed.

Section Runs.

Variables exec1 exec2 : Regex.Literal -> Regex.Matcher.
Variables legacyParse1 legacyParse2 : string -> option Z.
Variables kit1 kit2 : Kit.
Variables clock1 clock2 : Clock.
Variables owner repo : string.

(** C9: a run is a function of its inputs.  Two runs for the same owner
    and repository whose clients answer the issue request alike give the
    same output, at whatever times they are taken, on whatever engines,
    and whatever the clients answer to other requests: the entry point
    gives the same result, the collector the same array, and both send the
    same requests.  Nothing is carried from one run to the next: the
    functions have no argument and no result but the ones of the source,
    the engine, the client and the clock. *)
Theorem run_is_a_function_of_its_inputs :
  paginateIssues kit1 owner repo "Deep-dive" "open"
  = paginateIssues kit2 owner repo "Deep-dive" "open" ->
  getAndFormatDeepDiveUpdates (Regex.ecmaScript exec1) legacyParse1 kit1
                              clock1 owner repo
  = getAndFormatDeepDiveUpdates (Regex.ecmaScript exec2) legacyParse2 kit2
                                clock2 owner repo
  /\ getDeepDiveIssues (Regex.ecmaScript exec1) legacyParse1 kit1 clock1
                       owner repo
     = getDeepDiveIssues (Regex.ecmaScript exec2) legacyParse2 kit2 clock2
                         owner repo
  /\ forall regexp1 regexp2 : Regex.Dialect,
       fst (getAndFormatDeepDiveUpdates regexp1 legacyParse1 kit1 clock1
                                        owner repo)
       = fst (getAndFormatDeepDiveUpdates regexp2 legacyParse2 kit2 clock2
                                          owner repo).
Proof.
  intros Hreply.
  assert (getDeepDiveIssues (Regex.ecmaScript exec1) legacyParse1 kit1 clock1
                            owner repo
          = getDeepDiveIssues (Regex.ecmaScript exec2) legacyParse2 kit2
                              clock2 owner repo) as Hsame
    by (rewrite !getDeepDiveIssues_refused; now rewrite Hreply).
  split; [|split; [exact Hsame|]].
  - unfold getAndFormatDeepDiveUpdates. now rewrite Hsame.
  - intros regexp1 regexp2. rewrite !entryPoint_by_reply. now rewrite Hreply.
Qed.

End Runs.

Lemma run_is_a_function_of_its_inputs_witness :
  getAndFormatDeepDiveUpdates (Regex.ecmaScript Regex.noMatch)
    JsDate.strictEngine (Kits.listing sampleIssues) (steady Fixtures.may1)
    "github" "accessibility"
  = getAndFormatDeepDiveUpdates (Regex.ecmaScript Regex.noMatch) JsDate.strictEngine
      (Kits.listingForGithub sampleIssues)
      (steady (Fixtures.may1 + 30 * oneDayMs)) "github" "accessibility"
  /\ getDeepDiveIssues (Regex.ecmaScript Regex.noMatch) JsDate.strictEngine
       (Kits.listing sampleIssues) (steady Fixtures.may1)
       "github" "accessibility"
     = getDeepDiveIssues (Regex.ecmaScript Regex.noMatch) JsDate.strictEngine
         (Kits.listingForGithub sampleIssues)
         (steady (Fixtures.may1 + 30 * oneDayMs)) "github" "accessibility"
  /\ forall regexp1 regexp2 : Regex.Dialect,
       fst (getAndFormatDeepDiveUpdates regexp1 JsDate.strictEngine
              (Kits.listing sampleIssues) (steady Fixtures.may1)
              "github" "accessibility")
       = fst (getAndFormatDeepDiveUpdates regexp2 JsDate.strictEngine
                (Kits.listingForGithub sampleIssues)
                (steady (Fixtures.may1 + 30 * oneDayMs))
                "github" "accessibility").
Proof.
  apply (@run_is_a_function_of_its_inputs Regex.noMatch Regex.noMatch
           JsDate.strictEngine JsDate.strictEngine (Kits.listing sampleIssues)
           (Kits.listingForGithub sampleIssues) (steady Fixtures.may1)
           (steady (Fixtures.may1 + 30 * oneDayMs)) "github" "accessibility").
  reflexivity.
Defined.

(** * Further properties of the module *)

(** ** The status evaluator, in full *)

Section StatusEvaluatorInFull.

Variable legacyParse : string -> option Z.
Variable kit : Kit.

(** X5: a fulfilled status has one of two shapes.  Either [pastDue] is
    [true], both [needs] flags are present and exactly the comment request
    of the issue was sent; or it is exactly [{pastDue: false}] and nothing
    was sent.  [pastDue] is never absent. *)
Theorem getMissingUpdates_shapes (now : Z) (dueDate : string) (issueId : Z)
    (owner repo : string) (updates : MissingUpdates) (calls : list Request) :
  getMissingUpdates legacyParse kit now dueDate issueId owner repo
  = (Fulfilled updates, calls) ->
  (exists needsRecording needsNotes,
      updates = {| pastDue := Some true;
                   needsRecording := Some needsRecording;
                   needsNotes := Some needsNotes |}
      /\ calls = [GetComments owner repo issueId])
  \/ (updates = {| pastDue := Some false;
                   needsRecording := None;
                   needsNotes := None |}
      /\ calls = []).
Proof.
  unfold getMissingUpdates.
  destruct (withinOneDay legacyParse now dueDate); simpl.
  - destruct (await (paginateComments kit owner repo issueId)) as [comments|];
      [|discriminate].
    destruct (scanComments comments) as [r n]. intros [= <- <-].
    left. now exists r, n.
  - intros [= <- <-]. now right.
Qed.

(** X6: a due date the engine cannot read (an invalid date) is never past
    due: the comparison with [NaN] is false, the result is
    [{pastDue: false}] and no request is sent. *)
Theorem getMissingUpdates_invalid_date (now : Z) (dueDate : string)
    (issueId : Z) (owner repo : string) :
  JsDate.getTime legacyParse dueDate = None ->
  getMissingUpdates legacyParse kit now dueDate issueId owner repo
  = (Fulfilled {| pastDue := Some false;
                  needsRecording := None;
                  needsNotes := None |}, []).
Proof.
  intros H. unfold getMissingUpdates, withinOneDay. now rewrite H.
Qed.

(** X7: when the comment request is rejected, the status is rejected with
    the same error, after that one request. *)
Theorem getMissingUpdates_fetch_rejected (now : Z) (dueDate : string)
    (issueId : Z) (owner repo : string) (t : Z) (e : JsError) :
  JsDate.getTime legacyParse dueDate = Some t ->
  t <= now + oneDayMs ->
  paginateComments kit owner repo issueId = Async (Rejected e) ->
  getMissingUpdates legacyParse kit now dueDate issueId owner repo
  = (Rejected e, [GetComments owner repo issueId]).
Proof.
  intros Ht Hdue Hreply. unfold getMissingUpdates, withinOneDay.
  rewrite Ht, Hreply.
  assert ((t - now <=? oneDayMs) = true) as -> by (apply Z.leb_le; lia).
  reflexivity.
Qed.

(** X8: the comparison of line 42 is monotone in the clock: a due date
    that is past due stays past due at every later time. *)
Theorem withinOneDay_later (now later : Z) (dueDate : string) :
  withinOneDay legacyParse now dueDate = true ->
  now <= later ->
  withinOneDay legacyParse later dueDate = true.
Proof.
  unfold withinOneDay.
  destruct (JsDate.getTime legacyParse dueDate) as [t|]; [|discriminate].
  rewrite !Z.leb_le. lia.
Qed.

End StatusEvaluatorInFull.

Lemma getMissingUpdates_shapes_witness :
  (exists needsRecording needsNotes,
      {| pastDue := Some true;
         needsRecording := Some false;
         needsNotes := Some false |}
      = {| pastDue := Some true;
           needsRecording := Some needsRecording;
           needsNotes := Some needsNotes |}
      /\ [GetComments "github" "accessibility" 7]
         = [GetComments "github" "accessibility" 7])
  \/ ({| pastDue := Some true;
         needsRecording := Some false;
         needsNotes := Some false |}
      = {| pastDue := Some false;
           needsRecording := None;
           needsNotes := None |}
      /\ [GetComments "github" "accessibility" 7] = []).
Proof.
  apply (@getMissingUpdates_shapes JsDate.strictEngine Fixtures.answeredKit
           (Fixtures.may1 + 1) Fixtures.may1Text 7 "github" "accessibility").
  vm_compute. reflexivity.
Defined.

Lemma getMissingUpdates_invalid_date_witness :
  getMissingUpdates JsDate.strictEngine Fixtures.answeredKit
                    Fixtures.may1 "next Tuesday" 7 "github" "accessibility"
  = (Fulfilled {| pastDue := Some false;
                  needsRecording := None;
                  needsNotes := None |}, []).
Proof.
  apply (@getMissingUpdates_invalid_date JsDate.strictEngine
           Fixtures.answeredKit).
  vm_compute. reflexivity.
Defined.

Lemma getMissingUpdates_fetch_rejected_witness :
  getMissingUpdates JsDate.strictEngine (Kits.listingForGithub [])
                    Fixtures.may1 Fixtures.may1Text 7 "octocat" "accessibility"
  = (Rejected (Error "Not Found"), [GetComments "octocat" "accessibility" 7]).
Proof.
  apply (@getMissingUpdates_fetch_rejected JsDate.strictEngine
           (Kits.listingForGithub []) Fixtures.may1 Fixtures.may1Text 7
           "octocat" "accessibility" Fixtures.may1).
  - vm_compute. reflexivity.
  - unfold oneDayMs. lia.
  - reflexivity.
Defined.

Lemma withinOneDay_later_witness :
  withinOneDay JsDate.strictEngine (Fixtures.may1 + 7 * oneDayMs)
               Fixtures.may1Text = true.
Proof.
  apply (@withinOneDay_later JsDate.strictEngine
           (Fixtures.may1 - Fixtures.halfDayMs) (Fixtures.may1 + 7 * oneDayMs)).
  - vm_compute. reflexivity.
  - vm_compute. discriminate.
Defined.

(** ** The comment scan *)

Lemma existsb_Permutation {A} (f : A -> bool) (xs ys : list A) :
  Permutation xs ys -> existsb f xs = existsb f ys.
Proof.
  intros H. induction H; simpl.
  - reflexivity.
  - now rewrite IHPermutation.
  - now destruct (f x), (f y).
  - congruence.
Qed.

(** X9: the two flags do not depend on the order in which the comments
    arrive. *)
Theorem scanComments_any_order (comments comments' : list Comment) :
  Permutation comments comments' ->
  scanComments comments = scanComments comments'.
Proof.
  intros H. rewrite !scanComments_flags.
  now rewrite (existsb_Permutation mentionsRecording H),
              (existsb_Permutation mentionsNotes H).
Qed.

Lemma scanComments_any_order_witness :
  scanComments [Fixtures.chatComment; Fixtures.recordingComment;
                Fixtures.notesComment]
  = scanComments [Fixtures.notesComment; Fixtures.recordingComment;
                  Fixtures.chatComment].
Proof.
  apply scanComments_any_order.
  apply (Permutation_rev [Fixtures.chatComment; Fixtures.recordingComment;
                          Fixtures.notesComment]).
Defined.

(** X10: scanning two pages of comments one after the other leaves a flag
    set exactly when each page alone leaves it set. *)
Theorem scanComments_app (page page' : list Comment) :
  scanComments (page ++ page')
  = (fst (scanComments page) && fst (scanComments page'),
     snd (scanComments page) && snd (scanComments page')).
Proof.
  rewrite !scanComments_flags. simpl.
  now rewrite !existsb_app, !negb_orb.
Qed.

(** ** The issue collector, in full *)

Section CollectorInFull.

Variable regexp : Regex.Dialect.
Variable legacyParse : string -> option Z.
Variable kit : Kit.
Variables owner repo : string.

Lemma mapIssues_cons (clock : Clock) (position : nat) (issue : Issue)
    (rest : list Issue) :
  mapIssues regexp legacyParse kit clock owner repo position (issue :: rest)
  = (fst (mapIssue regexp legacyParse kit (clock position) owner repo issue)
     :: fst (mapIssues regexp legacyParse kit clock owner repo (S position) rest),
     (snd (mapIssue regexp legacyParse kit (clock position) owner repo issue)
      ++ snd (mapIssues regexp legacyParse kit clock owner repo (S position) rest))%list).
Proof.
  simpl.
  destruct (mapIssue regexp legacyParse kit (clock position) owner repo issue).
  now destruct (mapIssues regexp legacyParse kit clock owner repo (S position) rest).
Qed.

Lemma mapIssues_nth (clock : Clock) (issues : list Issue) :
  forall position k issue,
  nth_error issues k = Some issue ->
  nth_error (fst (mapIssues regexp legacyParse kit clock owner repo position issues)) k
  = Some (fst (mapIssue regexp legacyParse kit (clock (position + k)%nat)
                        owner repo issue)).
Proof.
  induction issues as [|first rest IH]; intros position k issue Hk.
  - now destruct k.
  - rewrite mapIssues_cons. destruct k as [|k]; simpl in *.
    + injection Hk as <-. now rewrite Nat.add_0_r.
    + rewrite (IH (S position) k issue Hk).
      now replace (S position + k)%nat with (position + S k)%nat by lia.
Qed.

Lemma mapIssue_calls (readings : Readings) (issue : Issue) :
  snd (mapIssue regexp legacyParse kit readings owner repo issue) = []
  \/ snd (mapIssue regexp legacyParse kit readings owner repo issue)
     = [GetComments owner repo (issue_id issue)].
Proof.
  unfold mapIssue.
  destruct (getDueDateFromDeepDiveBody regexp legacyParse (issue_body issue))
    as [due|]; [|now left].
  unfold getMissingUpdates.
  destruct (withinOneDay legacyParse (line42 readings) due); simpl.
  - destruct (await (paginateComments kit owner repo (issue_id issue)))
      as [comments|]; [|now right].
    destruct (scanComments comments).
    destruct (getMissingFieldsFromDeepDiveBody regexp (issue_body issue)); now right.
  - destruct (getMissingFieldsFromDeepDiveBody regexp (issue_body issue)); now left.
Qed.

Lemma mapIssues_calls (clock : Clock) (issues : list Issue) :
  forall position,
  exists perIssue : list (list Request),
    snd (mapIssues regexp legacyParse kit clock owner repo position issues)
    = List.concat perIssue
    /\ Forall2 (fun issue requests =>
                  requests = []
                  \/ requests = [GetComments owner repo (issue_id issue)])
               issues perIssue.
Proof.
  induction issues as [|first rest IH]; intros position.
  - exists []. split; [reflexivity | constructor].
  - rewrite mapIssues_cons. cbn [snd].
    destruct (IH (S position)) as (perIssue & -> & Hall).
    exists (snd (mapIssue regexp legacyParse kit (clock position) owner repo
                          first) :: perIssue).
    split; [reflexivity|].
    constructor; [apply mapIssue_calls | exact Hall].
Qed.

(** X11: with a client whose [paginate] returns a promise, whatever the
    promise settles to, the collector and the entry point are rejected with
    the [TypeError] of calling [map] on a promise, after the one issue
    request. *)
Theorem promise_reply_rejects (clock : Clock) (p : Settled (list Issue)) :
  paginateIssues kit owner repo "Deep-dive" "open" = Async p ->
  getDeepDiveIssues regexp legacyParse kit clock owner repo
  = (Rejected (TypeError "kit.paginate(...).map is not a function"),
     [GetIssues owner repo "Deep-dive" "open"])
  /\ getAndFormatDeepDiveUpdates regexp legacyParse kit clock owner repo
     = (Rejected (TypeError "kit.paginate(...).map is not a function"),
        [GetIssues owner repo "Deep-dive" "open"]).
Proof.
  intros H. unfold getAndFormatDeepDiveUpdates, getDeepDiveIssues.
  now rewrite H.
Qed.

(** X12: with an array for a reply the collector is fulfilled with one
    promise per issue, in the order of the issues; the promise at a position
    is the one the callback returns for the issue at that position and the
    clock of that position, whatever the other issues are. *)
Theorem getDeepDiveIssues_elementwise (clock : Clock) (issues : list Issue) :
  paginateIssues kit owner repo "Deep-dive" "open" = Sync issues ->
  exists promises calls,
    getDeepDiveIssues regexp legacyParse kit clock owner repo
    = (Fulfilled promises, calls)
    /\ List.length promises = List.length issues
    /\ forall k issue,
         nth_error issues k = Some issue ->
         nth_error promises k
         = Some (fst (mapIssue regexp legacyParse kit (clock k) owner repo
                               issue)).
Proof.
  intros H. unfold getDeepDiveIssues. rewrite H.
  pose proof (mapIssues_length regexp legacyParse kit clock owner repo 0
                               issues) as Hlen.
  pose proof (mapIssues_nth clock issues 0) as Hnth.
  destruct (mapIssues regexp legacyParse kit clock owner repo 0 issues)
    as [ps calls].
  exists ps, (GetIssues owner repo "Deep-dive" "open" :: calls).
  split; [reflexivity|]. split; [exact Hlen|].
  intros k issue Hk. exact (Hnth k issue Hk).
Qed.

(** X14: the collector sends the issue request for the label "Deep-dive"
    and the state "open" first.  After it come, issue by issue in the order
    of the list, either nothing or the one comment request for the same
    owner and repository and the [id] of that issue: at most one request
    per issue, and none for anything else. *)
Theorem getDeepDiveIssues_requests (clock : Clock) (issues : list Issue) :
  paginateIssues kit owner repo "Deep-dive" "open" = Sync issues ->
  exists perIssue : list (list Request),
    snd (getDeepDiveIssues regexp legacyParse kit clock owner repo)
    = GetIssues owner repo "Deep-dive" "open" :: List.concat perIssue
    /\ Forall2 (fun issue requests =>
                  requests = []
                  \/ requests = [GetComments owner repo (issue_id issue)])
               issues perIssue.
Proof.
  intros H. unfold getDeepDiveIssues. rewrite H.
  destruct (mapIssues_calls clock issues 0) as (perIssue & Hcalls & Hall).
  destruct (mapIssues regexp legacyParse kit clock owner repo 0 issues)
    as [ps calls].
  exists perIssue. split; [|exact Hall]. simpl in *. now rewrite Hcalls.
Qed.

End CollectorInFull.

Lemma promise_reply_rejects_witness :
  getDeepDiveIssues (Regex.ecmaScript Regex.noMatch) JsDate.strictEngine
                    (Kits.promising sampleIssues)
                    (steady Fixtures.may1) "github" "accessibility"
  = (Rejected (TypeError "kit.paginate(...).map is not a function"),
     [GetIssues "github" "accessibility" "Deep-dive" "open"])
  /\ getAndFormatDeepDiveUpdates (Regex.ecmaScript Regex.noMatch)
       JsDate.strictEngine (Kits.promising sampleIssues)
       (steady Fixtures.may1) "github" "accessibility"
     = (Rejected (TypeError "kit.paginate(...).map is not a function"),
        [GetIssues "github" "accessibility" "Deep-dive" "open"]).
Proof.
  apply (@promise_reply_rejects (Regex.ecmaScript Regex.noMatch)
           JsDate.strictEngine (Kits.promising sampleIssues)
           "github" "accessibility" (steady Fixtures.may1)
           (Fulfilled sampleIssues)).
  reflexivity.
Defined.

Lemma getDeepDiveIssues_elementwise_witness :
  exists promises calls,
    getDeepDiveIssues (Regex.ecmaScript Regex.noMatch) JsDate.strictEngine
                      (Kits.listing sampleIssues)
                      (steady Fixtures.may1) "github" "accessibility"
    = (Fulfilled promises, calls)
    /\ List.length promises = List.length sampleIssues
    /\ forall k issue,
         nth_error sampleIssues k = Some issue ->
         nth_error promises k
         = Some (fst (mapIssue (Regex.ecmaScript Regex.noMatch)
                               JsDate.strictEngine (Kits.listing sampleIssues)
                               (steady Fixtures.may1 k)
                               "github" "accessibility" issue)).
Proof.
  apply (@getDeepDiveIssues_elementwise (Regex.ecmaScript Regex.noMatch)
           JsDate.strictEngine (Kits.listing sampleIssues)
           "github" "accessibility" (steady Fixtures.may1) sampleIssues).
  reflexivity.
Defined.

Lemma getDeepDiveIssues_requests_witness :
  exists perIssue : list (list Request),
    snd (getDeepDiveIssues (Regex.ecmaScript Regex.noMatch)
           JsDate.strictEngine (Kits.listing sampleIssues)
           (steady Fixtures.may1) "github" "accessibility")
    = GetIssues "github" "accessibility" "Deep-dive" "open" :: List.concat perIssue
    /\ Forall2 (fun issue requests =>
                  requests = []
                  \/ requests
                     = [GetComments "github" "accessibility" (issue_id issue)])
               sampleIssues perIssue.
Proof.
  apply (@getDeepDiveIssues_requests (Regex.ecmaScript Regex.noMatch)
           JsDate.strictEngine (Kits.listing sampleIssues)
           "github" "accessibility" (steady Fixtures.may1) sampleIssues).
  reflexivity.
Defined.

(** ** The entry point and the formatter, in full *)

(** X17: the entry point ends in one of three ways, decided by the reply to
    the issue request alone: the empty string for an empty array, the
    [TypeError] of reading [pastDue] off a promise object for a non-empty
    array, the [TypeError] of the missing [map] for a promise.  It never
    yields a list fragment, and it sends the requests of the collector and
    no other. *)
Theorem entryPoint_outcomes (regexp : Regex.Dialect)
    (legacyParse : string -> option Z) (kit : Kit)
    (clock : Clock) (owner repo : string) :
  fst (getAndFormatDeepDiveUpdates regexp legacyParse kit clock owner repo)
  = match paginateIssues kit owner repo "Deep-dive" "open" with
    | Sync [] => Fulfilled ""
    | Sync (_ :: _) =>
        Rejected
          (TypeError "Cannot read properties of undefined (reading 'pastDue')")
    | Async _ =>
        Rejected (TypeError "kit.paginate(...).map is not a function")
    end
  /\ snd (getAndFormatDeepDiveUpdates regexp legacyParse kit clock owner repo)
     = snd (getDeepDiveIssues regexp legacyParse kit clock owner repo).
Proof.
  split.
  - destruct (paginateIssues kit owner repo "Deep-dive" "open")
      as [[|issue rest]|p] eqn:E.
    + now apply entryPoint_empty.
    + now apply (@entryPoint_nonempty regexp legacyParse kit clock owner repo
                   issue rest E).
    + unfold getAndFormatDeepDiveUpdates, getDeepDiveIssues. now rewrite E.
  - unfold getAndFormatDeepDiveUpdates.
    destruct (getDeepDiveIssues regexp legacyParse kit clock owner repo)
      as [[promises|e] calls]; [|reflexivity].
    now destruct (mapThrowing formatDeepDiveUpdate (map PromiseOf promises)).
Qed.

(** X18: for an update record the formatter throws in two cases only.  It
    throws on reading [leader] exactly when the record is high priority and
    has no [missingFields]; it throws on reading [pastDue] exactly when no
    rule on the roles decides, [missingFields] was there to be read, and
    the record has no [missingUpdates]. *)
Theorem formatDeepDiveUpdate_throws_iff (u : DeepDiveIssueUpdate) :
  (formatDeepDiveUpdate (Plain u)
   = Throw (TypeError "Cannot read properties of undefined (reading 'leader')")
   <-> truthy (highPriority u) = true /\ missingFields u = None)
  /\ (formatDeepDiveUpdate (Plain u)
      = Throw (TypeError "Cannot read properties of undefined (reading 'pastDue')")
      <-> rolesDecide u = false
          /\ (truthy (highPriority u) = true -> missingFields u <> None)
          /\ missingUpdates u = None).
Proof.
  unfold formatDeepDiveUpdate, reason, reasonPastDue, rolesDecide, fieldsView,
    readOfUndefined.
  simpl prop_highPriority. simpl prop_missingFields.
  simpl prop_missingUpdates.
  destruct (truthy (highPriority u));
    destruct (missingFields u) as [fields|];
    destruct (missingUpdates u) as [updates|];
    simpl;
    try destruct (truthy (leader fields));
    try destruct (truthy (notetaker fields));
    simpl;
    try destruct (truthy (pastDue updates));
    try destruct (truthy (needsNotes updates));
    try destruct (truthy (needsRecording updates));
    simpl; split; split; intros H;
    try discriminate H;
    try (repeat split; congruence);
    try (destruct H as (H1 & H2 & H3); try specialize (H2 eq_refl);
         congruence);
    try (destruct H as (H1 & H2); congruence).
Qed.

(** ** A date and its ISO string *)

Module DateFacts.
Import JsDate DateChecks.

Lemma isLeap_iff (y : Z) :
  isLeap y = true <-> (y mod 4 = 0 /\ y mod 100 <> 0) \/ y mod 400 = 0.
Proof.
  unfold isLeap.
  rewrite orb_true_iff, andb_true_iff, negb_true_iff, !Z.eqb_eq, Z.eqb_neq.
  reflexivity.
Qed.

(** Case analysis on every equality test of the goal. *)
Ltac split_tests :=
  repeat match goal with
         | |- context [?a =? ?b] => destruct (Z.eqb_spec a b)
         end;
  cbn [orb].

(** The civil date of a day of the era is a real date, converts back to
    the day, and falls in the last civil year of the era exactly from day
    146037 on. *)
Lemma civilOfDoe_sound (doe : Z) :
  0 <= doe < 146097 ->
  exists y m d,
    civilOfDoe doe = (y, m, d)
    /\ 0 <= y <= 400 /\ 1 <= m <= 12 /\ 1 <= d <= daysInMonth y m
    /\ daysFromCivil y m d = doe - 719468
    /\ (doe <= 146036 <-> y <= 399).
Proof.
  intros Hdoe. unfold civilOfDoe. cbv zeta.
  set (yoe := (doe - doe / 1460 + doe / 36524 - doe / 146096) / 365).
  set (doy := doe - (365 * yoe + yoe / 4 - yoe / 100)).
  set (mp := (5 * doy + 2) / 153).
  assert (0 <= yoe <= 399 /\ 0 <= doy <= 365
          /\ (doy = 365 ->
              ((yoe + 1) mod 4 = 0 /\ (yoe + 1) mod 100 <> 0)
              \/ (yoe + 1) mod 400 = 0)
          /\ (yoe = 399 -> doy = doe - 145731)) as (Hyoe & Hdoy & Hleap & Hlast)
    by (unfold doy, yoe; Z.div_mod_to_equations; lia).
  assert (doe = 365 * yoe + yoe / 4 - yoe / 100 + doy) as Hdoe'
    by (unfold doy; lia).
  assert (yoe / 400 = 0) as Hera by (Z.div_mod_to_equations; lia).
  assert (0 <= mp <= 11 /\ 153 * mp <= 5 * doy + 2 < 153 * mp + 153)
    as [Hmp Hmpdoy] by (unfold mp; Z.div_mod_to_equations; lia).
  clearbody mp doy yoe.
  destruct (mp <? 10) eqn:Em; [apply Z.ltb_lt in Em | apply Z.ltb_ge in Em].
  - assert ((mp + 3 <=? 2) = false) as Hm by (apply Z.leb_gt; lia).
    rewrite Hm.
    exists yoe, (mp + 3), (doy - (153 * mp + 2) / 5 + 1).
    split; [reflexivity|]. split; [lia|]. split; [lia|].
    split; [|split].
    + unfold daysInMonth. split_tests; Z.div_mod_to_equations; lia.
    + unfold daysFromCivil. cbv zeta. rewrite Hm.
      assert ((2 <? mp + 3) = true) as -> by (apply Z.ltb_lt; lia).
      rewrite Hera. replace (yoe - 0 * 400) with yoe by lia.
      replace (mp + 3 - 3) with mp by lia. lia.
    + Z.div_mod_to_equations. lia.
  - assert ((mp - 9 <=? 2) = true) as Hm by (apply Z.leb_le; lia).
    rewrite Hm.
    exists (yoe + 1), (mp - 9), (doy - (153 * mp + 2) / 5 + 1).
    split; [reflexivity|]. split; [lia|]. split; [lia|].
    split; [|split].
    + assert (isLeap (yoe + 1) = false -> doy <> 365) as Hfeb.
      { intros El H365. apply Hleap, isLeap_iff in H365. congruence. }
      unfold daysInMonth.
      destruct (isLeap (yoe + 1)); [|specialize (Hfeb eq_refl)];
        split_tests; Z.div_mod_to_equations; lia.
    + unfold daysFromCivil. cbv zeta. rewrite Hm.
      assert ((2 <? mp - 9) = false) as -> by (apply Z.ltb_ge; lia).
      replace (yoe + 1 - 1) with yoe by lia.
      rewrite Hera. replace (yoe - 0 * 400) with yoe by lia.
      replace (mp - 9 + 9) with mp by lia. lia.
    + Z.div_mod_to_equations. lia.
Qed.

Lemma civilFromDays_era (days : Z) :
  civilFromDays days
  = let era := (days + 719468) / 146097 in
    let '(y, m, d) := civilOfDoe (days + 719468 - era * 146097) in
    (y + era * 400, m, d).
Proof.
  unfold civilFromDays, civilOfDoe. cbv zeta.
  match goal with |- context [if ?c then _ + 1 else _] => destruct c end;
    f_equal; f_equal; lia.
Qed.

Lemma isLeap_shift (y era : Z) : isLeap (y + era * 400) = isLeap y.
Proof.
  unfold isLeap.
  replace ((y + era * 400) mod 4) with (y mod 4)
    by (Z.div_mod_to_equations; lia).
  replace ((y + era * 400) mod 100) with (y mod 100)
    by (Z.div_mod_to_equations; lia).
  replace ((y + era * 400) mod 400) with (y mod 400)
    by (Z.div_mod_to_equations; lia).
  reflexivity.
Qed.

Lemma daysInMonth_shift (y era m : Z) :
  daysInMonth (y + era * 400) m = daysInMonth y m.
Proof. unfold daysInMonth. now rewrite isLeap_shift. Qed.

Lemma daysFromCivil_shift (y era m d : Z) :
  daysFromCivil (y + era * 400) m d = daysFromCivil y m d + era * 146097.
Proof.
  unfold daysFromCivil. cbv zeta.
  destruct (m <=? 2).
  - replace ((y + era * 400 - 1) / 400) with ((y - 1) / 400 + era)
      by (Z.div_mod_to_equations; lia).
    replace (y + era * 400 - 1 - ((y - 1) / 400 + era) * 400)
      with (y - 1 - (y - 1) / 400 * 400) by lia.
    lia.
  - replace ((y + era * 400) / 400) with (y / 400 + era)
      by (Z.div_mod_to_equations; lia).
    replace (y + era * 400 - (y / 400 + era) * 400)
      with (y - y / 400 * 400) by lia.
    lia.
Qed.

Lemma digitOf_digitChar (k : Z) : digitOf (digitChar k) = Some (k mod 10).
Proof.
  unfold digitChar.
  assert (0 <= k mod 10 < 10) as H by (apply Z.mod_pos_bound; lia).
  assert (k mod 10 = 0 \/ k mod 10 = 1 \/ k mod 10 = 2 \/ k mod 10 = 3
          \/ k mod 10 = 4 \/ k mod 10 = 5 \/ k mod 10 = 6 \/ k mod 10 = 7
          \/ k mod 10 = 8 \/ k mod 10 = 9) as Hcases by lia.
  repeat (destruct Hcases as [-> | Hcases]; [reflexivity|]).
  now rewrite Hcases.
Qed.

Lemma padDec_2 (n : Z) :
  padDec 2 n = String (digitChar (n / 10)) (String (digitChar n) "").
Proof. reflexivity. Qed.

Lemma padDec_3 (n : Z) :
  padDec 3 n
  = String (digitChar (n / 10 / 10))
      (String (digitChar (n / 10)) (String (digitChar n) "")).
Proof. reflexivity. Qed.

Lemma padDec_4 (n : Z) :
  padDec 4 n
  = String (digitChar (n / 10 / 10 / 10))
      (String (digitChar (n / 10 / 10))
         (String (digitChar (n / 10)) (String (digitChar n) ""))).
Proof. reflexivity. Qed.

Lemma isoParse_stamp
    (y3 y2 y1 y0 mo1 mo0 d1 d0 h1 h0 mi1 mi0 s1 s0 ms2 ms1 ms0 : ascii)
    (vy3 vy2 vy1 vy0 vmo1 vmo0 vd1 vd0 vh1 vh0 vmi1 vmi0 vs1 vs0
     vms2 vms1 vms0 : Z) :
  digitOf y3 = Some vy3 -> digitOf y2 = Some vy2 ->
  digitOf y1 = Some vy1 -> digitOf y0 = Some vy0 ->
  digitOf mo1 = Some vmo1 -> digitOf mo0 = Some vmo0 ->
  digitOf d1 = Some vd1 -> digitOf d0 = Some vd0 ->
  digitOf h1 = Some vh1 -> digitOf h0 = Some vh0 ->
  digitOf mi1 = Some vmi1 -> digitOf mi0 = Some vmi0 ->
  digitOf s1 = Some vs1 -> digitOf s0 = Some vs0 ->
  digitOf ms2 = Some vms2 -> digitOf ms1 = Some vms1 ->
  digitOf ms0 = Some vms0 ->
  isoParse (stamp y3 y2 y1 y0 mo1 mo0 d1 d0 h1 h0 mi1 mi0 s1 s0 ms2 ms1 ms0)
  = fromFields (10 * (10 * (10 * (10 * 0 + vy3) + vy2) + vy1) + vy0)
               (10 * (10 * 0 + vmo1) + vmo0) (10 * (10 * 0 + vd1) + vd0)
               (10 * (10 * 0 + vh1) + vh0) (10 * (10 * 0 + vmi1) + vmi0)
               (10 * (10 * 0 + vs1) + vs0)
               (10 * (10 * (10 * 0 + vms2) + vms1) + vms0).
Proof.
  intros. unfold isoParse, stamp, field, charAt, fromFields.
  cbn [String.length Nat.eqb negb substring String.get Ascii.eqb Bool.eqb andb
       list_ascii_of_string digitsValue string_of_list_ascii].
  repeat match goal with H : digitOf _ = Some _ |- _ => rewrite H; clear H end.
  reflexivity.
Qed.

Lemma decimal_2 (n : Z) :
  0 <= n <= 99 -> 10 * (10 * 0 + (n / 10) mod 10) + n mod 10 = n.
Proof. intros H. Z.div_mod_to_equations. lia. Qed.

Lemma decimal_3 (n : Z) :
  0 <= n <= 999 ->
  10 * (10 * (10 * 0 + (n / 10 / 10) mod 10) + (n / 10) mod 10) + n mod 10 = n.
Proof. intros H. Z.div_mod_to_equations. lia. Qed.

Lemma decimal_4 (n : Z) :
  0 <= n <= 9999 ->
  10 * (10 * (10 * (10 * 0 + (n / 10 / 10 / 10) mod 10) + (n / 10 / 10) mod 10)
        + (n / 10) mod 10) + n mod 10 = n.
Proof. intros H. Z.div_mod_to_equations. lia. Qed.

Lemma civilFromDays_sound (days : Z) :
  -719528 <= days <= 2932896 ->
  exists y m d,
    civilFromDays days = (y, m, d)
    /\ 0 <= y <= 9999 /\ 1 <= m <= 12 /\ 1 <= d <= daysInMonth y m
    /\ daysFromCivil y m d = days.
Proof.
  intros Hdays. rewrite civilFromDays_era. cbv zeta.
  set (era := (days + 719468) / 146097).
  set (doe := days + 719468 - era * 146097).
  assert (0 <= doe < 146097 /\ -1 <= era <= 24) as [Hdoe Hera]
    by (unfold doe, era; Z.div_mod_to_equations; lia).
  destruct (@civilOfDoe_sound doe Hdoe)
    as (y0 & m & d & -> & Hy0 & Hm & Hd & Hback & Hedge).
  exists (y0 + era * 400), m, d.
  rewrite daysInMonth_shift, daysFromCivil_shift.
  split; [reflexivity|].
  assert (0 <= y0 + era * 400 <= 9999) by (unfold doe in *; lia).
  repeat split; lia.
Qed.

Lemma timeOfDay_sound (r : Z) :
  0 <= r < msPerDay ->
  0 <= r / 3600000 <= 23
  /\ 0 <= r / 60000 mod 60 <= 59
  /\ 0 <= r / 1000 mod 60 <= 59
  /\ 0 <= r mod 1000 <= 999
  /\ r / 3600000 * 3600000 + r / 60000 mod 60 * 60000
     + r / 1000 mod 60 * 1000 + r mod 1000 = r.
Proof. unfold msPerDay. intros H. Z.div_mod_to_equations. lia. Qed.

(** Reading back the ISO string of a time value with a four-digit year
    gives the time value. *)
Lemma isoParse_isoString (t : Z) :
  -62167219200000 <= t <= 253402300799999 ->
  isoParse (isoString t) = Some t.
Proof.
  intros Ht.
  assert (-719528 <= t / msPerDay <= 2932896 /\ 0 <= t mod msPerDay < msPerDay
          /\ t = t / msPerDay * msPerDay + t mod msPerDay)
    as (Hdays & Hr & Hsplit)
    by (unfold msPerDay; Z.div_mod_to_equations; lia).
  destruct (@civilFromDays_sound _ Hdays) as (y & m & d & Hcivil & Hy & Hm & Hd & Hback).
  destruct (@timeOfDay_sound _ Hr) as (Hh & Hmi & Hs & Hms & Hsum).
  assert (d <= 31) as Hd31.
  { revert Hd. unfold daysInMonth.
    destruct (m =? 2); [destruct (isLeap y)|]; [lia | lia |].
    destruct ((m =? 4) || (m =? 6) || (m =? 9) || (m =? 11)); lia. }
  unfold isoString. rewrite Hcivil.
  set (r := t mod msPerDay) in *.
  assert ((0 <=? y) && (y <=? 9999) = true) as ->
    by (apply andb_true_iff; split; apply Z.leb_le; lia).
  rewrite padDec_4, !padDec_2, padDec_3.
  change (isoParse
            (stamp (digitChar (y / 10 / 10 / 10)) (digitChar (y / 10 / 10))
                   (digitChar (y / 10)) (digitChar y)
                   (digitChar (m / 10)) (digitChar m)
                   (digitChar (d / 10)) (digitChar d)
                   (digitChar (r / 3600000 / 10)) (digitChar (r / 3600000))
                   (digitChar (r / 60000 mod 60 / 10))
                   (digitChar (r / 60000 mod 60))
                   (digitChar (r / 1000 mod 60 / 10))
                   (digitChar (r / 1000 mod 60))
                   (digitChar (r mod 1000 / 10 / 10))
                   (digitChar (r mod 1000 / 10)) (digitChar (r mod 1000)))
          = Some t).
  rewrite (@isoParse_stamp _ _ _ _ _ _ _ _ _ _ _ _ _ _ _ _ _
             _ _ _ _ _ _ _ _ _ _ _ _ _ _ _ _ _
             (digitOf_digitChar _) (digitOf_digitChar _) (digitOf_digitChar _)
             (digitOf_digitChar _) (digitOf_digitChar _) (digitOf_digitChar _)
             (digitOf_digitChar _) (digitOf_digitChar _) (digitOf_digitChar _)
             (digitOf_digitChar _) (digitOf_digitChar _) (digitOf_digitChar _)
             (digitOf_digitChar _) (digitOf_digitChar _) (digitOf_digitChar _)
             (digitOf_digitChar _) (digitOf_digitChar _)).
  rewrite (@decimal_4 y), (@decimal_2 m), (@decimal_2 d),
    (@decimal_2 (r / 3600000)), (@decimal_2 (r / 60000 mod 60)),
    (@decimal_2 (r / 1000 mod 60)), (@decimal_3 (r mod 1000)) by lia.
  unfold fromFields.
  assert ((1 <=? m) && (m <=? 12) && (1 <=? d) && (d <=? daysInMonth y m)
          && ((r / 3600000 <=? 23)
              || (r / 3600000 =? 24) && (r / 60000 mod 60 =? 0)
                 && (r / 1000 mod 60 =? 0) && (r mod 1000 =? 0))
          && (r / 60000 mod 60 <=? 59) && (r / 1000 mod 60 <=? 59) = true) as ->.
  { repeat (apply andb_true_iff; split); try (apply Z.leb_le; lia).
    apply orb_true_iff. left. apply Z.leb_le. lia. }
  f_equal. rewrite Hback. lia.
Qed.

End DateFacts.

(** ** The due date between extraction and comparison *)

Lemma withinOneDay_isoString (legacyParse : string -> option Z) (now t : Z) :
  -62167219200000 <= t <= 253402300799999 ->
  withinOneDay legacyParse now (JsDate.isoString t) = (t - now <=? oneDayMs).
Proof.
  intros Ht. unfold withinOneDay, JsDate.getTime, JsDate.parse.
  now rewrite (@DateFacts.isoParse_isoString t Ht).
Qed.

(** X19: the string [toISOString] writes for an instant of the years 0000
    to 9999 is read back by [new Date] as that instant, whatever the
    engine's heuristics: the due date of line 27 means the same instant at
    lines 42 and 92, and writing it again gives the same string. *)
Theorem dueDate_read_back (legacyParse : string -> option Z) (t : Z) :
  -62167219200000 <= t <= 253402300799999 ->
  JsDate.getTime legacyParse (JsDate.isoString t) = Some t
  /\ JsDate.toISOString legacyParse (JsDate.isoString t)
     = Return (JsDate.isoString t).
Proof.
  intros Ht. unfold JsDate.toISOString, JsDate.getTime, JsDate.parse.
  now rewrite (@DateFacts.isoParse_isoString t Ht).
Qed.

Lemma dueDate_read_back_witness :
  JsDate.getTime JsDate.strictEngine (JsDate.isoString Fixtures.may1)
  = Some Fixtures.may1
  /\ JsDate.toISOString JsDate.strictEngine (JsDate.isoString Fixtures.may1)
     = Return (JsDate.isoString Fixtures.may1).
Proof.
  apply (@dueDate_read_back JsDate.strictEngine Fixtures.may1).
  split; vm_compute; discriminate.
Defined.

(** X20: for a due date given as the ISO string of an instant [t] (years
    0000 to 9999) the status evaluator returns early, with
    [{pastDue: false}] and no request, exactly when [t] lies more than one
    day after the clock. *)
Theorem getMissingUpdates_early_return_iff (legacyParse : string -> option Z)
    (kit : Kit) (now t : Z) (issueId : Z) (owner repo : string) :
  -62167219200000 <= t <= 253402300799999 ->
  (getMissingUpdates legacyParse kit now (JsDate.isoString t) issueId owner repo
   = (Fulfilled {| pastDue := Some false;
                   needsRecording := None;
                   needsNotes := None |}, [])
   <-> now + oneDayMs < t).
Proof.
  intros Ht. unfold getMissingUpdates.
  rewrite (withinOneDay_isoString legacyParse now Ht).
  destruct (t - now <=? oneDayMs) eqn:E; simpl.
  - apply Z.leb_le in E. split; [|lia].
    destruct (await (paginateComments kit owner repo issueId)) as [comments|];
      [|discriminate].
    destruct (scanComments comments). discriminate.
  - apply Z.leb_gt in E. split; [lia | reflexivity].
Qed.

Lemma getMissingUpdates_early_return_iff_witness :
  getMissingUpdates JsDate.strictEngine Fixtures.answeredKit
    (Fixtures.may1 - 3 * oneDayMs) (JsDate.isoString Fixtures.may1) 7
    "github" "accessibility"
  = (Fulfilled {| pastDue := Some false;
                  needsRecording := None;
                  needsNotes := None |}, [])
  <-> Fixtures.may1 - 3 * oneDayMs + oneDayMs < Fixtures.may1.
Proof.
  apply (@getMissingUpdates_early_return_iff JsDate.strictEngine
           Fixtures.answeredKit (Fixtures.may1 - 3 * oneDayMs) Fixtures.may1).
  split; vm_compute; discriminate.
Defined.

(** ** One issue of the collector *)

Section OneIssue.

Variable regexp : Regex.Dialect.
Variable legacyParse : string -> option Z.
Variable kit : Kit.
Variables owner repo : string.
Variable readings : Readings.
Variable issue : Issue.

(** X22: while an issue is processed, its comment request is sent exactly
    when a due date was extracted and is at most one day ahead of the clock
    of line 42; otherwise nothing is sent.  The request does not depend on
    what the role extraction does afterwards. *)
Theorem mapIssue_request_iff :
  (snd (mapIssue regexp legacyParse kit readings owner repo issue)
   = [GetComments owner repo (issue_id issue)]
   <-> exists due,
         getDueDateFromDeepDiveBody regexp legacyParse (issue_body issue) = Return due
         /\ withinOneDay legacyParse (line42 readings) due = true)
  /\ (snd (mapIssue regexp legacyParse kit readings owner repo issue) = []
      <-> ~ exists due,
            getDueDateFromDeepDiveBody regexp legacyParse (issue_body issue)
            = Return due
            /\ withinOneDay legacyParse (line42 readings) due = true).
Proof.
  unfold mapIssue.
  destruct (getDueDateFromDeepDiveBody regexp legacyParse (issue_body issue))
    as [due|e].
  - unfold getMissingUpdates.
    destruct (withinOneDay legacyParse (line42 readings) due) eqn:E; simpl.
    + assert (exists d, Return due = Return d
                        /\ withinOneDay legacyParse (line42 readings) d = true)
        as Hyes by (now exists due).
      destruct (await (paginateComments kit owner repo (issue_id issue)))
        as [comments|]; simpl.
      * destruct (scanComments comments).
        destruct (getMissingFieldsFromDeepDiveBody regexp (issue_body issue)); simpl;
          (split; split; [auto | auto | discriminate | tauto]).
      * split; split; [auto | auto | discriminate | tauto].
    + assert (~ exists d, Return due = Return d
                          /\ withinOneDay legacyParse (line42 readings) d = true)
        as Hno by (intros (d & [= <-] & H); congruence).
      destruct (getMissingFieldsFromDeepDiveBody regexp (issue_body issue)); simpl;
        (split; split; [discriminate | tauto | auto | auto]).
  - simpl. split; split; try discriminate; auto.
    + intros (d & H & _). discriminate.
    + intros _ (d & H & _). discriminate.
Qed.

End OneIssue.

(** ** The collector under the regular expressions of the language *)


